(** * ImplicitSurfaceMesher

  A shallow embedding of [Thea::Algorithms::ImplicitSurfaceMesher]
  (Code/Source/Algorithms/ImplicitSurfaceMesher.hpp): the two evaluator
  adapters, the option bundles, the two entry points [meshBloomenthal] and
  [meshBoissonnatOudot], and the two [exportMesh] overloads that feed a
  reconstruction result into an [IncrementalMeshBuilder].

  The reconstruction algorithms themselves (the Bloomenthal polygonizer and
  CGAL's [make_mesh_3]) and the mesh builder are collaborators whose code is
  not part of this class: they appear as parameters. *)

From Stdlib Require Import ZArith SpecFloat Lia.
From stdpp Require Import base option list gmap strings.

Open Scope Z_scope.

(** ** Numbers

  C++ [double] values are IEEE binary64 numbers and [float] values IEEE
  binary32 numbers, both carried by [spec_float]. [Real] and CGAL's [FT]
  (of the inexact-constructions kernel) are [double]. *)

Module IEEE.

Definition double := spec_float.
Definition float := spec_float.

Definition double_prec : Z := 53.
Definition double_emax : Z := 1024.
Definition float_prec : Z := 24.
Definition float_emax : Z := 128.

(** An integer literal or an [int] converted to [double]. *)
Definition double_of_Z (z : Z) : double :=
  binary_normalize double_prec double_emax z 0 false.

(** [x < y] on doubles: false as soon as one side is a NaN. *)
Definition double_ltb (x y : double) : bool := SFltb x y.
Definition double_div (x y : double) : double := SFdiv double_prec double_emax x y.
Definition double_mul (x y : double) : double := SFmul double_prec double_emax x y.

(** [(float)x]: round to nearest, ties to even, in binary32. *)
Definition to_float (x : double) : float :=
  match x with
  | S754_finite s m e => binary_round float_prec float_emax s m e
  | _ => x
  end.

(** A [float] read as a [double]: exact, only the mantissa is realigned. *)
Definition to_double (x : float) : double :=
  match x with
  | S754_finite s m e => binary_round double_prec double_emax s m e
  | _ => x
  end.

(** The literal [0.1]. *)
Definition double_0_1 : double := S754_finite false 7205759403792794 (-56).

End IEEE.
Import IEEE.

Definition Real := double.

Record Vector3 := mkVector3 { vx : Real; vy : Real; vz : Real }.

Record Ball3 := mkBall3 { getCenter : Vector3; getRadius : Real }.

(** A [FunctorT *]: [None] is the null pointer. *)
Definition FunctorPtr := option (Vector3 -> Real).

(** ** Failures

  [alwaysAssertM] raises a fatal error, [throw Error(...)] an ordinary one.
  [MemoryFault] stands for a read through a null pointer or outside an
  array, which the C++ code leaves undefined. *)

Inductive Failure :=
| FatalError (msg : string)
| Error (msg : string)
| MemoryFault.

Inductive Outcome (A : Type) :=
| Returned (a : A)
| Thrown (f : Failure).
Arguments Returned {A} a.
Arguments Thrown {A} f.

Definition alwaysAssertM (test : bool) (msg : string) : Outcome unit :=
  if test then Returned tt else Thrown (FatalError msg).

(** ** Evaluator adapters *)

Definition null_error : string :=
  "ImplicitSurfaceMesher: Surface evaluator function cannot be null".

Module BloomenthalEval.

Record t := mk { func : FunctorPtr }.

Definition ctor (func_ : FunctorPtr) : Outcome t :=
  match alwaysAssertM (bool_decide (is_Some func_)) null_error with
  | Returned _ => Returned (mk func_)
  | Thrown f => Thrown f
  end.

(** [eval(x, y, z)]; dereferencing a null [func] is a fault. *)
Definition eval (self : t) (x y z : float) : Outcome float :=
  match func self with
  | Some f => Returned (to_float (f (mkVector3 (to_double x) (to_double y) (to_double z))))
  | None => Thrown MemoryFault
  end.

End BloomenthalEval.

Record Point_3 := mkPoint_3 { px : double; py : double; pz : double }.

Module CgalEval.

Record t := mk { func : FunctorPtr }.

Definition ctor (func_ : FunctorPtr) : Outcome t := Returned (mk func_).

(** [operator()(p)]. *)
Definition eval (self : t) (p : Point_3) : Outcome double :=
  match func self with
  | Some f => Returned (f (mkVector3 (px p) (py p) (pz p)))
  | None => Thrown MemoryFault
  end.

End CgalEval.

(** ** Options *)

Module Options.

Record Bloomenthal := mkBloomenthal {
  cell_size : double;
  max_search_steps : Z;
  tetrahedralize_cubes : bool }.

Record BoissonnatOudot := mkBoissonnatOudot {
  min_facet_angle : double;
  min_delaunay_radius : double;
  min_center_separation : double }.

Definition Bloomenthal_defaults : Bloomenthal :=
  mkBloomenthal (double_of_Z (-1)) (-1) false.

Definition BoissonnatOudot_defaults : BoissonnatOudot :=
  mkBoissonnatOudot (double_of_Z (-1)) (double_of_Z (-1)) (double_of_Z (-1)).

(** [struct Options] itself (lines 146-169) and its [defaults()]. *)
Record t := mk { bloomenthal : Bloomenthal; boissonnat_oudot : BoissonnatOudot }.

Definition defaults : t := mk Bloomenthal_defaults BoissonnatOudot_defaults.

End Options.

(** ** Reconstruction results *)

Module BloomenthalPolygonizer.

Record VERTEX := mkVERTEX { x : float; y : float; z : float }.
Record NORMAL := mkNORMAL { nx : float; ny : float; nz : float }.
Record TRIANGLE := mkTRIANGLE { v0 : Z; v1 : Z; v2 : Z }.

(** What [exportMesh] reads of a polygonizer after [march]. *)
Record Polygonizer := mkPolygonizer {
  no_vertices : nat;
  get_vertex : nat -> VERTEX;
  get_normal : nat -> NORMAL;
  no_triangles : nat;
  get_triangle : nat -> TRIANGLE }.

End BloomenthalPolygonizer.
Import BloomenthalPolygonizer.

(** CGAL's vertex and cell handles are pointers into the triangulation's
  containers; they are modelled by their addresses. *)
Definition Vertex_handle := N.
Definition Cell_handle := N.

Record Sphere_3 := mkSphere_3 { sphere_center : Point_3; squared_radius : double }.

Record Mesh_domain := mkMesh_domain {
  domain_function : CgalEval.t;
  domain_bounding_sphere : Sphere_3 }.

Record Mesh_criteria := mkMesh_criteria {
  facet_angle : double;
  facet_size : double;
  facet_distance : double;
  cell_radius_edge_ratio : double }.

(** What [exportMesh] reads of a [C3t3]: the finite vertices of its
  triangulation in iteration order, the point of a vertex, the facets of the
  surface complex as (cell, index of the opposite vertex), and
  [cell->vertex(i)]. *)
Record C3t3 := mkC3t3 {
  finite_vertices : list Vertex_handle;
  point : Vertex_handle -> Point_3;
  facets_in_complex : list (Cell_handle * Z);
  vertex : Cell_handle -> Z -> Vertex_handle }.

(** ** The mesh builder

  [Graphics::IncrementalMeshBuilder<MeshT>]: a builder is made from a mesh,
  every operation takes the builder to its next state, and [builder_mesh]
  reads the mesh the builder writes to. [addVertex] takes the position and
  the optional index and normal; [addFace] the vertex handles of the face. *)

Class IncrementalMeshBuilder (MeshT Builder VertexHandle FaceHandle : Type) := {
  builder_new : MeshT -> Builder;
  builder_mesh : Builder -> MeshT;
  builder_begin : Builder -> Builder;
  builder_end : Builder -> Builder;
  builder_addVertex :
    Vector3 -> option Z -> option Vector3 -> Builder -> VertexHandle * Builder;
  builder_addFace : list VertexHandle -> Builder -> FaceHandle * Builder;
  isValidVertexHandle : VertexHandle -> bool;
  isValidFaceHandle : FaceHandle -> bool }.

Section Mesher.

Context {MeshT Builder VertexHandle FaceHandle : Type}.
Context `{!IncrementalMeshBuilder MeshT Builder VertexHandle FaceHandle}.

(** *** Calls on the builder

    The export runs in a state that holds the builder and, as ghost state
    that no operation reads, the calls made on it so far, each with the
    handle it returned. *)

Inductive Call :=
| CBegin
| CEnd
| CAddVertex (p : Vector3) (index : option Z) (n : option Vector3) (h : VertexHandle)
| CAddFace (vs : list VertexHandle) (h : FaceHandle).

Record Session := mkSession { builder : Builder; calls : list Call }.

Definition Exp (A : Type) : Type := Session -> Outcome A * Session.

Definition ret {A} (a : A) : Exp A := fun s => (Returned a, s).

Definition throw {A} (f : Failure) : Exp A := fun s => (Thrown f, s).

Definition bind {A B} (c : Exp A) (k : A -> Exp B) : Exp B :=
  fun s =>
    match c s with
    | (Returned a, s') => k a s'
    | (Thrown f, s') => (Thrown f, s')
    end.

Definition lift {A} (o : Outcome A) : Exp A := fun s => (o, s).

Definition begin_ : Exp unit :=
  fun s => (Returned tt, mkSession (builder_begin (builder s)) (calls s ++ [CBegin])).

Definition end_ : Exp unit :=
  fun s => (Returned tt, mkSession (builder_end (builder s)) (calls s ++ [CEnd])).

Definition addVertex (p : Vector3) (index : option Z) (n : option Vector3)
  : Exp VertexHandle :=
  fun s =>
    let (h, b) := builder_addVertex p index n (builder s) in
    (Returned h, mkSession b (calls s ++ [CAddVertex p index n h])).

Definition addFace (vs : list VertexHandle) : Exp FaceHandle :=
  fun s =>
    let (h, b) := builder_addFace vs (builder s) in
    (Returned h, mkSession b (calls s ++ [CAddFace vs h])).

(** A loop over [xs] that carries the local variables [acc]. *)
Fixpoint for_each {X A} (xs : list X) (body : X -> A -> Exp A) (acc : A) : Exp A :=
  match xs with
  | [] => ret acc
  | x :: xs' => bind (body x acc) (for_each xs' body)
  end.

Declare Scope exp_scope.
Delimit Scope exp_scope with exp.
Local Notation "x <- c ;; k" := (bind c (fun x => k))
  (at level 100, c at next level, right associativity) : exp_scope.
Local Notation "c ;; k" := (bind c (fun _ => k))
  (at level 100, right associativity) : exp_scope.

(** ** The export adapters *)

Local Open Scope exp_scope.

(** What an entry point leaves behind: how it ended, the mesh the caller gave
  it, and the calls it made on the builder. *)
Record Run := mkRun {
  outcome : Outcome unit;
  mesh_after : MeshT;
  calls_made : list Call }.

(** [Builder builder(&dst);] followed by the body of an export. *)
Definition run_export (body : Exp unit) (dst : MeshT) : Run :=
  let (o, s) := body (mkSession (builder_new dst) []) in
  mkRun o (builder_mesh (builder s)) (calls s).

(** *** Bloomenthal overload (lines 259-295) *)

Definition vertex_error : string :=
  "ImplicitSurfaceMesher: Could not add vertex from Bloomenthal polygonizer to mesh".
Definition bounds_error : string :=
  "ImplicitSurfaceMesher: Vertex index in triangle from Bloomenthal polygonizer is out of bounds".
Definition triangle_error : string :=
  "ImplicitSurfaceMesher: Could not add triangle from Bloomenthal polygonizer to mesh".

Definition position (v : VERTEX) : Vector3 :=
  mkVector3 (to_double (x v)) (to_double (y v)) (to_double (z v)).

Definition normal (n : NORMAL) : Vector3 :=
  mkVector3 (to_double (nx n)) (to_double (ny n)) (to_double (nz n)).

(** Body of the vertex loop (lines 268-278); [vertices] is the array of
  handles collected so far. The counter [i] is below the size of an array, so
  [(intx)i] has the value of [i]. *)
Definition polygonizer_vertex_step (polygonizer : Polygonizer) (i : nat)
    (vertices : list VertexHandle) : Exp (list VertexHandle) :=
  let bp_p := get_vertex polygonizer i in
  let bp_n := get_normal polygonizer i in
  let p := position bp_p in
  let n := normal bp_n in
  vx <- addVertex p (Some (Z.of_nat i)) (Some n) ;;
  if isValidVertexHandle vx then ret (vertices ++ [vx])
  else throw (Error vertex_error).

(** [v >= 0 && (size_t)v < vertices.size()]. *)
Definition index_in_bounds (v : Z) (vertices : list VertexHandle) : bool :=
  (0 <=? v) && (Z.to_nat v <? length vertices)%nat.

Definition triangle_in_bounds (tri : TRIANGLE) (vertices : list VertexHandle) : bool :=
  index_in_bounds (v0 tri) vertices
  && index_in_bounds (v1 tri) vertices
  && index_in_bounds (v2 tri) vertices.

(** [vx[3] = { vertices[v0], vertices[v1], vertices[v2] }] (lines 288-290). *)
Definition triangle_handles (vertices : list VertexHandle) (tri : TRIANGLE)
    : option (list VertexHandle) :=
  match vertices !! Z.to_nat (v0 tri),
        vertices !! Z.to_nat (v1 tri),
        vertices !! Z.to_nat (v2 tri) with
  | Some a, Some b, Some c => Some [a; b; c]
  | _, _, _ => None
  end.

(** Body of the triangle loop (lines 281-293). *)
Definition polygonizer_triangle_step (polygonizer : Polygonizer)
    (vertices : list VertexHandle) (i : nat) (_ : unit) : Exp unit :=
  let tri := get_triangle polygonizer i in
  lift (alwaysAssertM (triangle_in_bounds tri vertices) bounds_error) ;;
  match triangle_handles vertices tri with
  | Some vx =>
      fh <- addFace vx ;;
      if isValidFaceHandle fh then ret tt
      else throw (Error triangle_error)
  | None => throw MemoryFault
  end.

Definition exportMesh_Polygonizer_body (polygonizer : Polygonizer) : Exp unit :=
  begin_ ;;
  vertices <- for_each (seq 0 (no_vertices polygonizer))
                (polygonizer_vertex_step polygonizer) [] ;;
  for_each (seq 0 (no_triangles polygonizer))
    (polygonizer_triangle_step polygonizer vertices) tt ;;
  end_.

Definition exportMesh_Polygonizer (polygonizer : Polygonizer) (dst : MeshT) : Run :=
  run_export (exportMesh_Polygonizer_body polygonizer) dst.

(** *** C3t3 overload (lines 300-355) *)

Definition c3t3_vertex_error : string :=
  "ImplicitSurfaceMesher: Could not add vertex from Boissonnat-Oudot polygonizer to mesh".
Definition unmapped_error : string :=
  "ImplicitSurfaceMesher: Mesh created by Boissonnat-Oudot polygonizer refers to unmapped vertex".
Definition c3t3_triangle_error : string :=
  "ImplicitSurfaceMesher: Could not add triangle from Boissonnat-Oudot polygonizer to mesh".

(** Body of the vertex loop (lines 315-322); [vmap] is the identity map. *)
Definition c3t3_vertex_step (src : C3t3) (vit : Vertex_handle)
    (vmap : gmap Vertex_handle VertexHandle) : Exp (gmap Vertex_handle VertexHandle) :=
  let p := point src vit in
  vout <- addVertex (mkVector3 (px p) (py p) (pz p)) None None ;;
  if isValidVertexHandle vout then ret (<[vit := vout]> vmap)
  else throw (Error c3t3_vertex_error).

(** Lines 333-339: the indices [i] of [0..3] with [i != facet_index], in
  increasing order, as they are written to [vertex_indices]. *)
Definition facet_vertex_indices (facet_index : Z) : list Z :=
  filter (fun i => i ≠ facet_index) [0; 1; 2; 3].

(** Body of the loop of lines 341-349; [face_vertices] holds the entries
  written so far. *)
Definition facet_corner_step (src : C3t3) (vmap : gmap Vertex_handle VertexHandle)
    (cell : Cell_handle) (vertex_index : Z) (face_vertices : list VertexHandle)
    : Exp (list VertexHandle) :=
  let vh := vertex src cell vertex_index in
  match vmap !! vh with
  | None => throw (Error unmapped_error)
  | Some existing => ret (face_vertices ++ [existing])
  end.

(** [int vertex_indices[3]] after the loop of lines 335-339. The array has
  room for three entries, and the loop writes [vertex_indices[j++] = i] for
  every [i] of [0..3] other than [facet_index]: three writes when
  [facet_index] is one of [0..3]. For any other [facet_index] there is a
  fourth write, [vertex_indices[3] = 3], past the end of the array, which
  C++ leaves undefined. The function has no check for it and goes on to the
  lookups and to [addFace]; the array itself holds [0, 1, 2] then, and this
  is what the embedding goes on with. *)
Definition vertex_indices (facet_index : Z) : list Z :=
  take 3 (facet_vertex_indices facet_index).

(** Body of the facet loop (lines 328-353): the three lookups of lines
  341-349 on the entries of [vertex_indices], then [addFace]. *)
Definition c3t3_facet_step (src : C3t3) (vmap : gmap Vertex_handle VertexHandle)
    (fit : Cell_handle * Z) (_ : unit) : Exp unit :=
  let cell := fit.1 in
  let facet_index := fit.2 in
  face_vertices <- for_each (vertex_indices facet_index)
                     (facet_corner_step src vmap cell) [] ;;
  fh <- addFace face_vertices ;;
  if isValidFaceHandle fh then ret tt
  else throw (Error c3t3_triangle_error).

Definition exportMesh_C3t3_body (src : C3t3) : Exp unit :=
  begin_ ;;
  vmap <- for_each (finite_vertices src) (c3t3_vertex_step src) ∅ ;;
  for_each (facets_in_complex src) (c3t3_facet_step src vmap) tt ;;
  end_.

Definition exportMesh_C3t3 (src : C3t3) (dst : MeshT) : Run :=
  run_export (exportMesh_C3t3_body src) dst.

(** ** The entry points *)

Section EntryPoints.

(** [Polygonizer polygonizer(&func, size, bounds); polygonizer.march(tet, x, y, z)]:
  the third-party polygonizer, from its constructor arguments and the
  arguments of [march] to what it holds afterwards. *)
Variable march :
  BloomenthalEval.t -> float -> Z -> bool -> float -> float -> float -> Polygonizer.

(** [CGAL::make_mesh_3<C3t3>(domain, criteria, perturb, exude)]. *)
Variable make_mesh_3 : Mesh_domain -> Mesh_criteria -> bool -> bool -> C3t3.

(** [Math::radiansToDegrees]. *)
Variable radiansToDegrees : double -> double.

Definition no_perturb : bool := false.
Definition no_exude : bool := false.

Definition meshBloomenthal (surface_functor : FunctorPtr) (bounding_ball : Ball3)
    (pt_near_surface : Vector3) (options : Options.Bloomenthal) (result : MeshT) : Run :=
  match BloomenthalEval.ctor surface_functor with
  | Thrown f => mkRun (Thrown f) result []
  | Returned func =>
      let size :=
        to_float (if double_ltb (Options.cell_size options) (double_of_Z 0)
                  then double_div (getRadius bounding_ball) (double_of_Z 10)
                  else Options.cell_size options) in
      let bounds :=
        if Options.max_search_steps options <? 0 then 10
        else Options.max_search_steps options in
      let polygonizer :=
        march func size bounds (Options.tetrahedralize_cubes options)
          (to_float (vx pt_near_surface)) (to_float (vy pt_near_surface))
          (to_float (vz pt_near_surface)) in
      exportMesh_Polygonizer polygonizer result
  end.

Definition meshBoissonnatOudot (surface_functor : FunctorPtr) (bounding_ball : Ball3)
    (options : Options.BoissonnatOudot) (result : MeshT) : Run :=
  match CgalEval.ctor surface_functor with
  | Thrown f => mkRun (Thrown f) result []
  | Returned func =>
      let center := getCenter bounding_ball in
      let radius := getRadius bounding_ball in
      let bounding_sphere :=
        mkSphere_3 (mkPoint_3 (vx center) (vy center) (vz center))
          (double_mul radius radius) in
      let domain := mkMesh_domain func bounding_sphere in
      let criteria :=
        mkMesh_criteria
          (if double_ltb (Options.min_facet_angle options) (double_of_Z 0)
           then double_of_Z 30
           else radiansToDegrees (Options.min_facet_angle options))
          (if double_ltb (Options.min_delaunay_radius options) (double_of_Z 0)
           then double_0_1
           else Options.min_delaunay_radius options)
          (if double_ltb (Options.min_center_separation options) (double_of_Z 0)
           then double_0_1
           else Options.min_center_separation options)
          (double_of_Z 2) in
      let c3t3 := make_mesh_3 domain criteria no_perturb no_exude in
      exportMesh_C3t3 c3t3 result
  end.

End EntryPoints.

End Mesher.

Arguments Call : clear implicits.
Arguments Session : clear implicits.
Arguments Exp : clear implicits.
Arguments Run : clear implicits.

(** ** A small target mesh

  An index-based mesh on which the model can be run: vertices and faces are
  kept in arrays, a handle is an index and [-1] is the invalid handle. The mesh
  takes at most [max_vertices] vertices, and refuses a face that names a vertex
  it does not have or names one twice. *)

Module IndexedMesh.

Record t := mk {
  vertices : list Vector3;
  faces : list (list Z);
  max_vertices : nat }.

Record builder := mkBuilder { mesh : t; building : bool }.

Definition addVertex (p : Vector3) (index : option Z) (n : option Vector3)
    (b : builder) : Z * builder :=
  let m := mesh b in
  if (length (vertices m) <? max_vertices m)%nat
  then (Z.of_nat (length (vertices m)),
        mkBuilder (mk (vertices m ++ [p]) (faces m) (max_vertices m)) (building b))
  else (-1, b).

Definition known (m : t) (v : Z) : bool :=
  (0 <=? v) && (v <? Z.of_nat (length (vertices m))).

Definition addFace (vs : list Z) (b : builder) : Z * builder :=
  let m := mesh b in
  if forallb (known m) vs && bool_decide (NoDup vs)
  then (Z.of_nat (length (faces m)),
        mkBuilder (mk (vertices m) (faces m ++ [vs]) (max_vertices m)) (building b))
  else (-1, b).

#[global] Instance indexed_builder : IncrementalMeshBuilder t builder Z Z := {|
  builder_new := fun m => mkBuilder m false;
  builder_mesh := mesh;
  builder_begin := fun b => mkBuilder (mesh b) true;
  builder_end := fun b => mkBuilder (mesh b) false;
  builder_addVertex := addVertex;
  builder_addFace := addFace;
  isValidVertexHandle := fun h => 0 <=? h;
  isValidFaceHandle := fun h => 0 <=? h |}.

(** The empty mesh with room for [n] vertices. *)
Definition empty (n : nat) : t := mk [] [] n.

(** [m'] holds the vertices and faces of [m], at the same indices. *)
Definition keeps (m m' : t) : Prop :=
  vertices m `prefix_of` vertices m' /\ faces m `prefix_of` faces m'.

End IndexedMesh.

(** ** Sample inputs *)

Module Samples.

Definition f0 : float := S754_zero false.
Definition f1 : float := S754_finite false 8388608 (-23).

(** Three vertices and the triangle on them. *)
Definition triangle : Polygonizer :=
  mkPolygonizer 3
    (fun i => match i with
              | O => mkVERTEX f1 f0 f0
              | S O => mkVERTEX f0 f1 f0
              | _ => mkVERTEX f0 f0 f1
              end)
    (fun _ => mkNORMAL f0 f0 f1)
    1
    (fun _ => mkTRIANGLE 0 1 2).

(** The same vertices with a triangle that names a vertex [3]. *)
Definition dangling : Polygonizer :=
  mkPolygonizer 3 (get_vertex triangle) (get_normal triangle) 1
    (fun _ => mkTRIANGLE 0 1 3).

(** No vertex and no triangle. *)
Definition nothing : Polygonizer :=
  mkPolygonizer 0 (get_vertex triangle) (get_normal triangle) 0
    (fun _ => mkTRIANGLE 0 0 0).

Definition origin : Point_3 := mkPoint_3 (double_of_Z 0) (double_of_Z 0) (double_of_Z 0).

(** One tetrahedron (cell [1]) on the finite vertices [10..13]; its facet
  opposite to corner [3] is in the surface complex. *)
Definition tetrahedron : C3t3 :=
  mkC3t3 [10; 11; 12; 13]%N (fun _ => origin) [(1%N, 3)]
    (fun _ i => (10 + Z.to_N i)%N).


(** A triangulation with no finite vertex and no surface facet. *)
Definition no_surface : C3t3 :=
  mkC3t3 [] (fun _ => origin) [] (fun _ _ => 0%N).

(** A polygonizer and a mesher that return the samples above whatever they
  are given, the identity for the conversion to degrees, a constant functor,
  the ball of radius 2 at the origin, and a mesh that holds one vertex and has
  room for one more. *)
Definition march (_ : BloomenthalEval.t) (_ : float) (_ : Z) (_ : bool)
    (_ _ _ : float) : Polygonizer := triangle.

Definition make_mesh_3 (_ : Mesh_domain) (_ : Mesh_criteria) (_ _ : bool) : C3t3 :=
  tetrahedron.

Definition degrees (x : double) : double := x.

Definition functor : FunctorPtr := Some (fun _ => double_of_Z (-1)).

Definition zero : Vector3 := mkVector3 (double_of_Z 0) (double_of_Z 0) (double_of_Z 0).

Definition ball : Ball3 := mkBall3 zero (double_of_Z 2).

Definition used_mesh : IndexedMesh.t := IndexedMesh.mk [zero] [] 2.

(** [triangle] again, with other entries past the ends of its arrays. *)
Definition triangle_padded : Polygonizer :=
  mkPolygonizer 3
    (fun i => if (i <? 3)%nat then get_vertex triangle i else mkVERTEX f1 f1 f1)
    (fun i => if (i <? 3)%nat then get_normal triangle i else mkNORMAL f1 f1 f1)
    1
    (fun i => match i with O => mkTRIANGLE 0 1 2 | _ => mkTRIANGLE 7 7 7 end).

(** [tetrahedron] again, with another corner opposite to its facet and other
  points away from its vertices. *)
Definition tetrahedron_capped : C3t3 :=
  mkC3t3 [10; 11; 12; 13]%N
    (fun v => if (v <? 14)%N then origin
              else mkPoint_3 (double_of_Z 1) (double_of_Z 1) (double_of_Z 1))
    [(1%N, 3)]
    (fun _ i => if i =? 3 then 99%N else (10 + Z.to_N i)%N).

(** Options that ask for a cell size of zero and no search step. *)
Definition zero_options : Options.Bloomenthal :=
  Options.mkBloomenthal (S754_zero false) 0 true.

(** Options with other negative entries than the defaults have. *)
Definition other_sentinels_b : Options.Bloomenthal :=
  Options.mkBloomenthal (double_of_Z (-7)) (-3) false.

Definition other_sentinels_bo : Options.BoissonnatOudot :=
  Options.mkBoissonnatOudot (double_of_Z (-2)) (double_of_Z (-3)) (double_of_Z (-4)).

End Samples.

(** ** Reading a run

  The words the claims are stated in: what a list of calls does to a builder,
  which insertions the mesh turned down, the shape the two exports share, and
  what the steps of each export do before they call the builder. *)

Section Verification.

Context {MeshT Builder VertexHandle FaceHandle : Type}.
Context `{!IncrementalMeshBuilder MeshT Builder VertexHandle FaceHandle}.

Local Abbreviation Call := (Call VertexHandle FaceHandle).
Local Abbreviation Session := (Session Builder VertexHandle FaceHandle).
Local Abbreviation Exp := (Exp Builder VertexHandle FaceHandle).
Local Abbreviation Run := (Run MeshT VertexHandle FaceHandle).

(** [call_step b c b'] : the call [c], with the handle it records, is what the
  builder in state [b] answers, and it leaves the builder in state [b']. *)
Inductive call_step : Builder -> Call -> Builder -> Prop :=
| step_begin b : call_step b CBegin (builder_begin b)
| step_end b : call_step b CEnd (builder_end b)
| step_addVertex b p i n :
    call_step b (CAddVertex p i n (builder_addVertex p i n b).1)
              (builder_addVertex p i n b).2
| step_addFace b vs :
    call_step b (CAddFace vs (builder_addFace vs b).1) (builder_addFace vs b).2.

(** [performed b cs b'] : the calls [cs], made in order on the builder in state
  [b], leave it in state [b']. *)
Inductive performed : Builder -> list Call -> Builder -> Prop :=
| performed_nil b : performed b [] b
| performed_cons b c b' cs b'' :
    call_step b c b' -> performed b' cs b'' -> performed b (c :: cs) b''.

(** An insertion that the mesh turned down: the handle it returned is invalid. *)
Definition rejected (c : Call) : bool :=
  match c with
  | CAddVertex _ _ _ h => negb (isValidVertexHandle h)
  | CAddFace _ h => negb (isValidFaceHandle h)
  | _ => false
  end.

Definition is_addVertex (c : Call) : bool :=
  match c with CAddVertex _ _ _ _ => true | _ => false end.

Definition is_addFace (c : Call) : bool :=
  match c with CAddFace _ _ => true | _ => false end.

Definition is_addition (c : Call) : bool := is_addVertex c || is_addFace c.

(** The session [s'] is [s] after the calls [new], and nothing else. *)
Definition extends_by (s : Session) (new : list Call) (s' : Session) : Prop :=
  calls s' = calls s ++ new /\ performed (builder s) new (builder s').

(** The shape shared by the bodies of the two vertex loops: one [addVertex],
  the validity check, and an update of the local variables. *)
Definition checked_vertex {X A} (req : X -> Vector3 * option Z * option Vector3)
    (upd : X -> VertexHandle -> A -> A) (msg : string) (x : X) (acc : A) : Exp A :=
  fun s =>
    let '(p, i, n) := req x in
    let (h, b) := builder_addVertex p i n (builder s) in
    let s' := mkSession b (calls s ++ [CAddVertex p i n h]) in
    if isValidVertexHandle h then (Returned (upd x h acc), s')
    else (Thrown (Error msg), s').

(** The call that the vertex loop makes for [x] when the builder answers [h]. *)
Definition vertex_call {X} (req : X -> Vector3 * option Z * option Vector3)
    (x : X) (h : VertexHandle) : Call :=
  let '(p, i, n) := req x in CAddVertex p i n h.

(** The shape shared by the bodies of the two face loops: a check that either
  fails or yields the corners, one [addFace], and the validity check. *)
Definition checked_face {X} (pre : X -> Failure + list VertexHandle)
    (msg : string) (x : X) (_ : unit) : Exp unit :=
  fun s =>
    match pre x with
    | inl f => (Thrown f, s)
    | inr vs =>
        let (h, b) := builder_addFace vs (builder s) in
        let s' := mkSession b (calls s ++ [CAddFace vs h]) in
        if isValidFaceHandle h then (Returned tt, s')
        else (Thrown (Error msg), s')
    end.

(** [c] is the call that the face loop makes for [x]. *)
Definition face_call_of {X} (pre : X -> Failure + list VertexHandle) (x : X) (c : Call)
    : Prop :=
  exists vs h, pre x = inr vs /\ c = CAddFace vs h.

(** [begin]; the vertex loop; the face loop; [end]. *)
Definition export_shape {X Y A} (xs : list X) (vbody : X -> A -> Exp A) (acc0 : A)
    (ys : list Y) (fbody : A -> Y -> unit -> Exp unit) : Exp unit :=
  bind begin_ (fun _ =>
  bind (for_each xs vbody acc0) (fun acc =>
  bind (for_each ys (fbody acc) tt) (fun _ => end_))).

(** The local variables after the vertex loop has collected the handles [hs]. *)
Definition collected {X A} (upd : X -> VertexHandle -> A -> A) (acc0 : A)
    (xs : list X) (hs : list VertexHandle) : A :=
  foldl (fun a xh => upd xh.1 xh.2 a) acc0 (zip xs hs).

(** How an export ended, given the handles [hs] of the vertex calls, the face
  calls [F] and the closing calls [E]. *)
Inductive ending {X Y A} (xs : list X) (ys : list Y)
    (pre : A -> Y -> Failure + list VertexHandle) (vmsg fmsg : string) (acc : A)
    (hs : list VertexHandle) (F E : list Call) : Outcome unit -> Prop :=
| ended_normally :
    E = [CEnd] -> length hs = length xs -> length F = length ys ->
    Forall (fun h => isValidVertexHandle h = true) hs ->
    Forall (fun c => rejected c = false) F ->
    ending xs ys pre vmsg fmsg acc hs F E (Returned tt)
| vertex_rejected hs0 h :
    E = [] -> F = [] -> hs = hs0 ++ [h] ->
    Forall (fun h => isValidVertexHandle h = true) hs0 ->
    isValidVertexHandle h = false ->
    ending xs ys pre vmsg fmsg acc hs F E (Thrown (Error vmsg))
| face_check_failed y f :
    E = [] -> length hs = length xs ->
    Forall (fun h => isValidVertexHandle h = true) hs ->
    Forall (fun c => rejected c = false) F ->
    ys !! length F = Some y -> pre acc y = inl f ->
    ending xs ys pre vmsg fmsg acc hs F E (Thrown f)
| face_rejected F0 c :
    E = [] -> length hs = length xs ->
    Forall (fun h => isValidVertexHandle h = true) hs ->
    F = F0 ++ [c] -> Forall (fun c => rejected c = false) F0 ->
    rejected c = true ->
    ending xs ys pre vmsg fmsg acc hs F E (Thrown (Error fmsg)).

(** The arguments of [addVertex] for raw vertex [i] (line 273). *)
Definition polygonizer_vertex_request (polygonizer : Polygonizer) (i : nat)
    : Vector3 * option Z * option Vector3 :=
  (position (get_vertex polygonizer i), Some (Z.of_nat i),
   Some (normal (get_normal polygonizer i))).

(** [vertices.push_back(vx)] (line 277). *)
Definition push_back (_ : nat) (h : VertexHandle) (vertices : list VertexHandle)
    : list VertexHandle :=
  vertices ++ [h].

(** What the triangle loop does with triangle [i] before it calls [addFace]:
  the assertion, then the three reads of [vertices]. *)
Definition triangle_corners (polygonizer : Polygonizer)
    (vertices : list VertexHandle) (i : nat) : Failure + list VertexHandle :=
  let tri := get_triangle polygonizer i in
  if triangle_in_bounds tri vertices then
    match triangle_handles vertices tri with
    | Some vx => inr vx
    | None => inl MemoryFault
    end
  else inl (FatalError bounds_error).

(** The arguments of [addVertex] for the finite vertex [vit] (line 317). *)
Definition c3t3_vertex_request (src : C3t3) (vit : Vertex_handle)
    : Vector3 * option Z * option Vector3 :=
  let p := point src vit in
  (mkVector3 (px p) (py p) (pz p), None, None).

(** [vmap[vit] = vout] (line 321). *)
Definition record_handle (vit : Vertex_handle) (vout : VertexHandle)
    (vmap : gmap Vertex_handle VertexHandle) : gmap Vertex_handle VertexHandle :=
  <[vit := vout]> vmap.

(** What the facet loop does with a facet before it calls [addFace]: it picks
  the three corner indices and looks the three corners up in [vmap]. *)
Definition facet_corners (src : C3t3) (vmap : gmap Vertex_handle VertexHandle)
    (fit : Cell_handle * Z) : Failure + list VertexHandle :=
  match mapM (fun i => vmap !! vertex src fit.1 i) (vertex_indices fit.2) with
  | Some face_vertices => inr face_vertices
  | None => inl (Error unmapped_error)
  end.

(** The domain and the criteria [meshBoissonnatOudot] hands to [make_mesh_3]
  are built from these pieces. *)
Definition bounding_sphere_of (bounding_ball : Ball3) : Sphere_3 :=
  let center := getCenter bounding_ball in
  mkSphere_3 (mkPoint_3 (vx center) (vy center) (vz center))
    (double_mul (getRadius bounding_ball) (getRadius bounding_ball)).

(** [x < 0] on a [double]. *)
Definition negative (x : double) : Prop := double_ltb x (double_of_Z 0) = true.

(** The handle stored at index [v] of [vertices]. *)
Definition handle_at (vertices : list VertexHandle) (v : Z) (h : VertexHandle) : Prop :=
  0 <= v /\ vertices !! Z.to_nat v = Some h.

(** [c] is an [addFace] on the handles stored at the three indices of [tri]. *)
Definition face_of_triangle (vertices : list VertexHandle) (tri : TRIANGLE) (c : Call)
    : Prop :=
  exists a b c' fh,
    handle_at vertices (v0 tri) a /\ handle_at vertices (v1 tri) b
    /\ handle_at vertices (v2 tri) c' /\ c = CAddFace [a; b; c'] fh.

(** [v] lies in [[0, n)]. *)
Definition index_in_range (v : Z) (n : nat) : Prop := 0 <= v < Z.of_nat n.

Definition triangle_in_range (tri : TRIANGLE) (n : nat) : Prop :=
  index_in_range (v0 tri) n /\ index_in_range (v1 tri) n /\ index_in_range (v2 tri) n.

(** How many [addVertex] calls, and how many [addFace] calls, [cs] holds. *)
Definition added_vertices (cs : list Call) : nat := length (List.filter is_addVertex cs).
Definition added_faces (cs : list Call) : nat := length (List.filter is_addFace cs).

(** The identity map after the vertex loop collected the handles [hs]. *)
Definition identity_map (src : C3t3) (hs : list VertexHandle)
    : gmap Vertex_handle VertexHandle :=
  collected record_handle ∅ (finite_vertices src) hs.

(** [c] is an [addFace] on the handles that [vmap] gives for the three corners
  of the cell of [fit] other than the corner opposite to the facet, taken in
  increasing order of their index. *)
Definition facet_triangle (src : C3t3) (vmap : gmap Vertex_handle VertexHandle)
    (fit : Cell_handle * Z) (c : Call) : Prop :=
  exists i0 i1 i2 a0 a1 a2 fh,
    (0 <= i0 /\ i0 < i1 /\ i1 < i2 /\ i2 <= 3)
    /\ (i0 <> fit.2 /\ i1 <> fit.2 /\ i2 <> fit.2)
    /\ vmap !! vertex src fit.1 i0 = Some a0
    /\ vmap !! vertex src fit.1 i1 = Some a1
    /\ vmap !! vertex src fit.1 i2 = Some a2
    /\ c = CAddFace [a0; a1; a2] fh.

(** The error an export throws when the mesh turns the insertion [c] down. *)
Definition rejection_error (vmsg fmsg : string) (c : Call) : Failure :=
  if is_addVertex c then Error vmsg else Error fmsg.

(** A rejected insertion is the last call of the run: the run throws the
  matching error, and the mesh is left as it was after that call. *)
Definition fails_fast (vmsg fmsg : string) (dst : MeshT) (run : Run) : Prop :=
  forall pre c post,
    calls_made run = pre ++ c :: post ->
    rejected c = true ->
    post = []
    /\ outcome run = Thrown (rejection_error vmsg fmsg c)
    /\ exists b', performed (builder_new dst) (pre ++ [c]) b'
         /\ mesh_after run = builder_mesh b'.

(** The calls of a run are none at all, or [begin], additions only, and
  possibly [end]. *)
Definition bracketed_additions (cs : list Call) : Prop :=
  cs = []
  \/ exists adds E,
       cs = CBegin :: adds ++ E
       /\ Forall (fun c => is_addition c = true) adds
       /\ (E = [] \/ E = [CEnd]).

(** The mesh after the run is the caller's mesh, untouched when no call was
  made, and otherwise what the builder made from it holds after the calls. *)
Definition mutated_by_calls (result : MeshT) (run : Run) : Prop :=
  (calls_made run = [] /\ mesh_after run = result)
  \/ exists b', performed (builder_new result) (calls_made run) b'
       /\ mesh_after run = builder_mesh b'.

(** *** Words for the further properties *)

(** The call at position [j] of [cs] is an [addVertex] that returned [h]. *)
Definition returned_at (cs : list Call) (j : nat) (h : VertexHandle) : Prop :=
  exists p i n, cs !! j = Some (CAddVertex p i n h).

(** Every [addFace] call of [cs] is on three handles, each of them valid and
  returned by an [addVertex] call made earlier in [cs]. *)
Definition faces_on_returned_handles (cs : list Call) : Prop :=
  forall j vs fh,
    cs !! j = Some (CAddFace vs fh) ->
    length vs = 3%nat
    /\ forall h, h ∈ vs ->
         isValidVertexHandle h = true
         /\ exists j', (j' < j)%nat /\ returned_at cs j' h.

(** [cs] opens with [begin], goes on with additions only, and holds [end],
  as its last call, exactly when the run returned. *)
Definition bracket_follows_outcome (o : Outcome unit) (cs : list Call) : Prop :=
  exists body,
    Forall (fun c => is_addition c = true) body
    /\ ((o = Returned tt /\ cs = CBegin :: body ++ [CEnd])
        \/ (exists f, o = Thrown f /\ cs = CBegin :: body)).

(** The three corners of the facet [fit] are finite vertices of [src]. *)
Definition finite_corners (src : C3t3) (fit : Cell_handle * Z) : Prop :=
  forall i, 0 <= i <= 3 -> i <> fit.2 -> vertex src fit.1 i ∈ finite_vertices src.

(** [x] is a zero or a NaN: a [double] for which [x < 0] is false although it
  is no positive size. *)
Definition zero_or_nan (x : double) : Prop :=
  x = S754_nan \/ exists s, x = S754_zero s.

(** Two polygonizers hold the same vertices, normals and triangles. *)
Definition same_arrays (p1 p2 : Polygonizer) : Prop :=
  no_vertices p1 = no_vertices p2
  /\ no_triangles p1 = no_triangles p2
  /\ (forall i, (i < no_vertices p1)%nat ->
        get_vertex p1 i = get_vertex p2 i /\ get_normal p1 i = get_normal p2 i)
  /\ (forall i, (i < no_triangles p1)%nat -> get_triangle p1 i = get_triangle p2 i).

(** Two complexes have the same finite vertices with the same points, and the
  same surface facets with the same corners. *)
Definition same_complex (c1 c2 : C3t3) : Prop :=
  finite_vertices c1 = finite_vertices c2
  /\ facets_in_complex c1 = facets_in_complex c2
  /\ (forall v, v ∈ finite_vertices c1 -> point c1 v = point c2 v)
  /\ (forall cell idx i, (cell, idx) ∈ facets_in_complex c1 ->
        0 <= i <= 3 -> i <> idx -> vertex c1 cell i = vertex c2 cell i).

(** ** Lemmas on runs *)

(** The literal [0.1] is the double nearest to one tenth. *)
Lemma double_0_1_is_a_tenth :
  double_0_1 = double_div (double_of_Z 1) (double_of_Z 10).
Proof. vm_compute. reflexivity. Qed.

Lemma performed_app b1 l1 b2 l2 b3 :
  performed b1 l1 b2 -> performed b2 l2 b3 -> performed b1 (l1 ++ l2) b3.
Proof.
  induction 1 as [|b c b' cs b'' Hc Hcs IH]; intros H2; simpl; [done|].
  econstructor; [exact Hc|]. by apply IH.
Qed.

Lemma performed_one b c b' : call_step b c b' -> performed b [c] b'.
Proof. intros Hc. econstructor; [exact Hc | constructor]. Qed.

Lemma extends_by_nil s : extends_by s [] s.
Proof. split; [by rewrite app_nil_r | constructor]. Qed.

Lemma extends_by_app s1 l1 s2 l2 s3 :
  extends_by s1 l1 s2 -> extends_by s2 l2 s3 -> extends_by s1 (l1 ++ l2) s3.
Proof.
  intros [E1 P1] [E2 P2]. split.
  - by rewrite E2, E1, app_assoc.
  - by eapply performed_app.
Qed.

Lemma extends_by_addVertex s p i n :
  extends_by s [CAddVertex p i n (builder_addVertex p i n (builder s)).1]
    (mkSession (builder_addVertex p i n (builder s)).2
       (calls s ++ [CAddVertex p i n (builder_addVertex p i n (builder s)).1])).
Proof. split; [done|]. apply performed_one. constructor. Qed.

Lemma extends_by_addFace s vs :
  extends_by s [CAddFace vs (builder_addFace vs (builder s)).1]
    (mkSession (builder_addFace vs (builder s)).2
       (calls s ++ [CAddFace vs (builder_addFace vs (builder s)).1])).
Proof. split; [done|]. apply performed_one. constructor. Qed.

Lemma vertex_loop_run {X A} (req : X -> Vector3 * option Z * option Vector3)
    (upd : X -> VertexHandle -> A -> A) (msg : string) (body : X -> A -> Exp A) :
  (forall x acc s, body x acc s = checked_vertex req upd msg x acc s) ->
  forall xs acc s o s',
    for_each xs body acc s = (o, s') ->
    exists hs : list VertexHandle,
      (length hs <= length xs)%nat
      /\ extends_by s (zip_with (vertex_call req) xs hs) s'
      /\ match o with
         | Returned acc' =>
             length hs = length xs
             /\ Forall (fun h => isValidVertexHandle h = true) hs
             /\ acc' = foldl (fun a xh => upd xh.1 xh.2 a) acc (zip xs hs)
         | Thrown f =>
             f = Error msg
             /\ exists hs0 h, hs = hs0 ++ [h]
                  /\ Forall (fun h => isValidVertexHandle h = true) hs0
                  /\ isValidVertexHandle h = false
         end.
Proof.
  intros Hbody xs. induction xs as [|x xs IH]; intros acc s o s' Hrun.
  - simpl in Hrun. injection Hrun as <- <-.
    exists []. split; [done|]. split; [apply extends_by_nil|]. done.
  - simpl in Hrun. unfold bind in Hrun. rewrite Hbody in Hrun.
    unfold checked_vertex in Hrun. unfold vertex_call.
    destruct (req x) as [[p i] n] eqn:Hreq.
    pose proof (extends_by_addVertex s p i n) as Hext.
    destruct (builder_addVertex p i n (builder s)) as [h b] eqn:Hadd.
    simpl in Hext.
    destruct (isValidVertexHandle h) eqn:Hvalid.
    + apply IH in Hrun as (hs & Hlen & Hcalls & Hout).
      exists (h :: hs). split; [simpl; lia|]. split.
      * simpl. rewrite Hreq.
        change (CAddVertex p i n h :: ?l) with ([CAddVertex p i n h] ++ l).
        by eapply extends_by_app.
      * destruct o as [acc'|f].
        -- destruct Hout as (Hl & Hall & Hacc). simpl.
           split; [by rewrite Hl|]. split; [by constructor|done].
        -- destruct Hout as (Hf & hs0 & h' & Hhs & Hall & Hbad).
           split; [done|]. exists (h :: hs0), h'. rewrite Hhs.
           split; [done|]. split; [by constructor|done].
    + injection Hrun as <- <-.
      exists [h]. split; [simpl; lia|]. split.
      * simpl. rewrite Hreq. destruct xs; exact Hext.
      * split; [done|]. by exists [], h.
Qed.

Lemma face_loop_run {X} (pre : X -> Failure + list VertexHandle) (msg : string)
    (body : X -> unit -> Exp unit) :
  (forall x u s, body x u s = checked_face pre msg x u s) ->
  forall xs u s o s',
    for_each xs body u s = (o, s') ->
    exists F : list Call,
      (length F <= length xs)%nat
      /\ extends_by s F s'
      /\ Forall2 (face_call_of pre) (take (length F) xs) F
      /\ match o with
         | Returned _ =>
             length F = length xs /\ Forall (fun c => rejected c = false) F
         | Thrown f =>
             (Forall (fun c => rejected c = false) F
              /\ exists x, xs !! length F = Some x /\ pre x = inl f)
             \/ (f = Error msg
                 /\ exists F0 c, F = F0 ++ [c]
                      /\ Forall (fun c => rejected c = false) F0
                      /\ rejected c = true)
         end.
Proof.
  intros Hbody xs. induction xs as [|x xs IH]; intros u s o s' Hrun.
  - simpl in Hrun. injection Hrun as <- <-.
    exists []. split; [done|]. split; [apply extends_by_nil|].
    split; [constructor|]. done.
  - simpl in Hrun. unfold bind in Hrun. rewrite Hbody in Hrun.
    unfold checked_face in Hrun.
    destruct (pre x) as [f|vs] eqn:Hpre.
    + injection Hrun as <- <-.
      exists []. split; [simpl; lia|]. split; [apply extends_by_nil|].
      split; [constructor|]. left. split; [constructor|]. by exists x.
    + pose proof (extends_by_addFace s vs) as Hext.
      destruct (builder_addFace vs (builder s)) as [h b] eqn:Hadd.
      simpl in Hext.
      assert (Hx : face_call_of pre x (CAddFace vs h)) by (by exists vs, h).
      destruct (isValidFaceHandle h) eqn:Hvalid.
      * apply IH in Hrun as (F & Hlen & Hcalls & Hall2 & Hout).
        exists (CAddFace vs h :: F). split; [simpl; lia|]. split.
        { change (CAddFace vs h :: F) with ([CAddFace vs h] ++ F).
          by eapply extends_by_app. }
        split; [simpl; by constructor|].
        assert (Hok : rejected (CAddFace vs h) = false)
          by (simpl; by rewrite Hvalid).
        destruct o as [?|f].
        -- destruct Hout as (Hl & Hacc). simpl.
           split; [by rewrite Hl|]. by constructor.
        -- destruct Hout as [(Hacc & y & Hy & Hf)|(Hf & F0 & c & HF & Hacc & Hbad)].
           ++ left. split; [by constructor|]. by exists y.
           ++ right. split; [done|]. exists (CAddFace vs h :: F0), c.
              rewrite HF. split; [done|]. split; [by constructor|done].
      * injection Hrun as <- <-.
        exists [CAddFace vs h]. split; [simpl; lia|]. split; [exact Hext|].
        split; [simpl; rewrite take_0; by repeat constructor|].
        right. split; [done|]. exists [], (CAddFace vs h).
        split; [done|]. split; [constructor|]. simpl. by rewrite Hvalid.
Qed.

Lemma export_shape_run {X Y A} (xs : list X) (vbody : X -> A -> Exp A) (acc0 : A)
    (ys : list Y) (fbody : A -> Y -> unit -> Exp unit)
    (req : X -> Vector3 * option Z * option Vector3)
    (upd : X -> VertexHandle -> A -> A) (vmsg : string)
    (pre : A -> Y -> Failure + list VertexHandle) (fmsg : string) :
  (forall x acc s, vbody x acc s = checked_vertex req upd vmsg x acc s) ->
  (forall acc y u s, fbody acc y u s = checked_face (pre acc) fmsg y u s) ->
  forall s o s',
    export_shape xs vbody acc0 ys fbody s = (o, s') ->
    exists (hs : list VertexHandle) (F E : list Call),
      extends_by s (CBegin :: zip_with (vertex_call req) xs hs ++ F ++ E) s'
      /\ (length hs <= length xs)%nat
      /\ (length F <= length ys)%nat
      /\ Forall2 (face_call_of (pre (collected upd acc0 xs hs))) (take (length F) ys) F
      /\ ending xs ys pre vmsg fmsg (collected upd acc0 xs hs) hs F E o.
Proof.
  intros Hv Hf s o s' Hrun. unfold export_shape in Hrun.
  unfold bind at 1 in Hrun. unfold begin_ at 1 in Hrun.
  set (s0 := mkSession (builder_begin (builder s)) (calls s ++ [CBegin])) in Hrun.
  assert (H0 : extends_by s [CBegin] s0)
    by (split; [done | apply performed_one; constructor]).
  unfold bind at 1 in Hrun.
  destruct (for_each xs vbody acc0 s0) as [o1 s1] eqn:Hrun1.
  apply (vertex_loop_run req upd vmsg vbody Hv) in Hrun1
    as (hs & Hlen & Hext1 & Hout1).
  pose proof (extends_by_app _ _ _ _ _ H0 Hext1) as H1. cbn [app] in H1.
  destruct o1 as [acc|f].
  - destruct Hout1 as (Hl & Hvalid & ->).
    fold (collected upd acc0 xs hs) in Hrun.
    unfold bind at 1 in Hrun.
    destruct (for_each ys (fbody (collected upd acc0 xs hs)) tt s1) as [o2 s2] eqn:Hrun2.
    apply (face_loop_run _ fmsg _ (Hf _)) in Hrun2
      as (F & HlenF & Hext2 & Hall2 & Hout2).
    pose proof (extends_by_app _ _ _ _ _ H1 Hext2) as H2. cbn [app] in H2.
    destruct o2 as [[]|f].
    + destruct Hout2 as (HlF & Hacc). unfold end_ in Hrun.
      injection Hrun as <- <-.
      exists hs, F, [CEnd].
      split.
      { assert (H3 : extends_by s2 [CEnd]
                       (mkSession (builder_end (builder s2)) (calls s2 ++ [CEnd])))
          by (split; [done | apply performed_one; constructor]).
        pose proof (extends_by_app _ _ _ _ _ H2 H3) as H4. cbn [app] in H4.
        by rewrite <- !app_assoc in H4. }
      split; [done|]. split; [done|]. split; [done|].
      by apply ended_normally.
    + injection Hrun as <- <-.
      exists hs, F, []. rewrite app_nil_r.
      split; [done|]. split; [done|]. split; [done|]. split; [done|].
      destruct Hout2 as [(Hacc & y & Hy & Hpre)|(-> & F0 & c & HF & Hacc & Hbad)].
      * by eapply face_check_failed.
      * by eapply face_rejected.
  - destruct Hout1 as (-> & hs0 & h & Hhs & Hvalid & Hbad).
    injection Hrun as <- <-.
    exists hs, [], []. rewrite !app_nil_r.
    split; [done|]. split; [done|]. split; [simpl; lia|].
    split; [simpl; rewrite take_0; constructor|].
    by eapply vertex_rejected.
Qed.

Lemma export_shape_anatomy {X Y A} (xs : list X) (vbody : X -> A -> Exp A) (acc0 : A)
    (ys : list Y) (fbody : A -> Y -> unit -> Exp unit)
    (req : X -> Vector3 * option Z * option Vector3)
    (upd : X -> VertexHandle -> A -> A) (vmsg : string)
    (pre : A -> Y -> Failure + list VertexHandle) (fmsg : string) (dst : MeshT) :
  (forall x acc s, vbody x acc s = checked_vertex req upd vmsg x acc s) ->
  (forall acc y u s, fbody acc y u s = checked_face (pre acc) fmsg y u s) ->
  exists (hs : list VertexHandle) (F E : list Call) (o : Outcome unit) (b' : Builder),
    run_export (export_shape xs vbody acc0 ys fbody) dst
      = mkRun o (builder_mesh b')
          (CBegin :: zip_with (vertex_call req) xs hs ++ F ++ E)
    /\ performed (builder_new dst)
         (CBegin :: zip_with (vertex_call req) xs hs ++ F ++ E) b'
    /\ (length hs <= length xs)%nat
    /\ (length F <= length ys)%nat
    /\ Forall2 (face_call_of (pre (collected upd acc0 xs hs))) (take (length F) ys) F
    /\ ending xs ys pre vmsg fmsg (collected upd acc0 xs hs) hs F E o.
Proof.
  intros Hv Hf. unfold run_export.
  destruct (export_shape xs vbody acc0 ys fbody (mkSession (builder_new dst) []))
    as [o s'] eqn:Hrun.
  apply (export_shape_run xs vbody acc0 ys fbody req upd vmsg pre fmsg Hv Hf) in Hrun
    as (hs & F & E & [Hc Hp] & Hlen & HlenF & Hall & Hend).
  cbn [calls builder app] in Hc, Hp.
  exists hs, F, E, o, (builder s'). rewrite Hc. done.
Qed.

Lemma ending_returned {X Y A} (xs : list X) (ys : list Y)
    (pre : A -> Y -> Failure + list VertexHandle) vmsg fmsg acc hs F E u :
  ending xs ys pre vmsg fmsg acc hs F E (Returned u) ->
  E = [CEnd] /\ length hs = length xs /\ length F = length ys
  /\ Forall (fun h => isValidVertexHandle h = true) hs
  /\ Forall (fun c => rejected c = false) F.
Proof. inversion 1; by subst. Qed.

Lemma ending_thrown {X Y A} (xs : list X) (ys : list Y)
    (pre : A -> Y -> Failure + list VertexHandle) vmsg fmsg acc hs F E f :
  ending xs ys pre vmsg fmsg acc hs F E (Thrown f) ->
  E = []
  /\ ((f = Error vmsg /\ F = []
       /\ exists hs0 h, hs = hs0 ++ [h]
            /\ Forall (fun h => isValidVertexHandle h = true) hs0
            /\ isValidVertexHandle h = false)
      \/ (length hs = length xs
          /\ Forall (fun h => isValidVertexHandle h = true) hs
          /\ ((Forall (fun c => rejected c = false) F
               /\ exists y, ys !! length F = Some y /\ pre acc y = inl f)
              \/ (f = Error fmsg
                  /\ exists F0 c, F = F0 ++ [c]
                       /\ Forall (fun c => rejected c = false) F0
                       /\ rejected c = true)))).
Proof.
  inversion 1; subst; (split; [reflexivity|]).
  - left. split; [done|]. split; [done|]. by eexists _, _.
  - right. split; [done|]. split; [done|]. left. split; [done|]. by eexists.
  - right. split; [done|]. split; [done|]. right. split; [done|]. by eexists _, _.
Qed.

Lemma polygonizer_vertex_step_shape polygonizer i vertices s :
  polygonizer_vertex_step polygonizer i vertices s
  = checked_vertex (polygonizer_vertex_request polygonizer) push_back vertex_error
      i vertices s.
Proof.
  unfold polygonizer_vertex_step, checked_vertex, polygonizer_vertex_request,
    bind, addVertex, push_back.
  destruct (builder_addVertex _ _ _ _) as [h b].
  by destruct (isValidVertexHandle h).
Qed.

Lemma polygonizer_triangle_step_shape polygonizer vertices i u s :
  polygonizer_triangle_step polygonizer vertices i u s
  = checked_face (triangle_corners polygonizer vertices) triangle_error i u s.
Proof.
  unfold polygonizer_triangle_step, checked_face, triangle_corners, bind, lift,
    alwaysAssertM, addFace.
  destruct (triangle_in_bounds _ _); [|done].
  destruct (triangle_handles _ _) as [vx|]; [|done].
  destruct (builder_addFace _ _) as [h b].
  by destruct (isValidFaceHandle h).
Qed.

Lemma collected_push_back (acc : list VertexHandle) (xs : list nat)
    (hs : list VertexHandle) :
  (length hs <= length xs)%nat -> collected push_back acc xs hs = acc ++ hs.
Proof.
  unfold collected. revert acc hs.
  induction xs as [|x xs IH]; intros acc [|h hs] Hlen; simpl in *;
    rewrite ?app_nil_r; try done; try lia.
  rewrite IH by lia. unfold push_back. by rewrite <- app_assoc.
Qed.

Lemma exportMesh_Polygonizer_anatomy (polygonizer : Polygonizer) (dst : MeshT) :
  exists (hs : list VertexHandle) (F E : list Call) (o : Outcome unit) (b' : Builder),
    exportMesh_Polygonizer polygonizer dst
      = mkRun o (builder_mesh b')
          (CBegin
           :: zip_with (vertex_call (polygonizer_vertex_request polygonizer))
                (seq 0 (no_vertices polygonizer)) hs ++ F ++ E)
    /\ performed (builder_new dst)
         (CBegin
          :: zip_with (vertex_call (polygonizer_vertex_request polygonizer))
               (seq 0 (no_vertices polygonizer)) hs ++ F ++ E) b'
    /\ (length hs <= no_vertices polygonizer)%nat
    /\ (length F <= no_triangles polygonizer)%nat
    /\ Forall2 (face_call_of (triangle_corners polygonizer hs))
         (take (length F) (seq 0 (no_triangles polygonizer))) F
    /\ ending (seq 0 (no_vertices polygonizer)) (seq 0 (no_triangles polygonizer))
         (triangle_corners polygonizer) vertex_error triangle_error hs hs F E o.
Proof.
  destruct (export_shape_anatomy
              (seq 0 (no_vertices polygonizer)) (polygonizer_vertex_step polygonizer) []
              (seq 0 (no_triangles polygonizer)) (polygonizer_triangle_step polygonizer)
              (polygonizer_vertex_request polygonizer) push_back vertex_error
              (triangle_corners polygonizer) triangle_error dst
              (polygonizer_vertex_step_shape polygonizer)
              (polygonizer_triangle_step_shape polygonizer))
    as (hs & F & E & o & b' & Hrun & Hperf & Hlen & HlenF & Hall & Hend).
  rewrite collected_push_back in Hall, Hend by done. simpl in Hall, Hend.
  rewrite length_seq in Hlen, HlenF.
  exists hs, F, E, o, b'. done.
Qed.

Lemma c3t3_vertex_step_shape src vit vmap s :
  c3t3_vertex_step src vit vmap s
  = checked_vertex (c3t3_vertex_request src) record_handle c3t3_vertex_error
      vit vmap s.
Proof.
  unfold c3t3_vertex_step, checked_vertex, c3t3_vertex_request, bind, addVertex,
    record_handle.
  destruct (builder_addVertex _ _ _ _) as [h b].
  by destruct (isValidVertexHandle h).
Qed.

Lemma facet_corner_loop (src : C3t3) (vmap : gmap Vertex_handle VertexHandle)
    (cell : Cell_handle) (l : list Z) (acc : list VertexHandle) (s : Session) :
  for_each l (facet_corner_step src vmap cell) acc s
  = match mapM (fun i => vmap !! vertex src cell i) l with
    | Some vs => (Returned (acc ++ vs), s)
    | None => (@Thrown (list VertexHandle) (Error unmapped_error), s)
    end.
Proof.
  revert acc. induction l as [|i l IH]; intros acc; simpl.
  - by rewrite app_nil_r.
  - unfold bind, facet_corner_step at 1.
    destruct (vmap !! vertex src cell i) as [h|]; simpl; [|done].
    rewrite IH.
    destruct (mapM _ l) as [vs|]; simpl; [|done].
    by rewrite <- app_assoc.
Qed.

Lemma c3t3_facet_step_shape src vmap fit u s :
  c3t3_facet_step src vmap fit u s
  = checked_face (facet_corners src vmap) c3t3_triangle_error fit u s.
Proof.
  unfold c3t3_facet_step, checked_face, facet_corners.
  unfold bind at 1. rewrite facet_corner_loop.
  destruct (mapM _ _) as [vs|]; [|done].
  unfold bind, addFace. simpl.
  destruct (builder_addFace _ _) as [h b].
  by destruct (isValidFaceHandle h).
Qed.

Lemma exportMesh_C3t3_anatomy (src : C3t3) (dst : MeshT) :
  exists (hs : list VertexHandle) (F E : list Call) (o : Outcome unit) (b' : Builder),
    exportMesh_C3t3 src dst
      = mkRun o (builder_mesh b')
          (CBegin
           :: zip_with (vertex_call (c3t3_vertex_request src))
                (finite_vertices src) hs ++ F ++ E)
    /\ performed (builder_new dst)
         (CBegin
          :: zip_with (vertex_call (c3t3_vertex_request src))
               (finite_vertices src) hs ++ F ++ E) b'
    /\ (length hs <= length (finite_vertices src))%nat
    /\ (length F <= length (facets_in_complex src))%nat
    /\ Forall2
         (face_call_of
            (facet_corners src (collected record_handle ∅ (finite_vertices src) hs)))
         (take (length F) (facets_in_complex src)) F
    /\ ending (finite_vertices src) (facets_in_complex src)
         (facet_corners src) c3t3_vertex_error c3t3_triangle_error
         (collected record_handle ∅ (finite_vertices src) hs) hs F E o.
Proof.
  exact (export_shape_anatomy
           (finite_vertices src) (c3t3_vertex_step src) ∅
           (facets_in_complex src) (c3t3_facet_step src)
           (c3t3_vertex_request src) record_handle c3t3_vertex_error
           (facet_corners src) c3t3_triangle_error dst
           (c3t3_vertex_step_shape src) (c3t3_facet_step_shape src)).
Qed.

Lemma index_in_bounds_spec (v : Z) (vertices : list VertexHandle) :
  index_in_bounds v vertices = true <-> index_in_range v (length vertices).
Proof.
  unfold index_in_bounds, index_in_range.
  rewrite andb_true_iff, Z.leb_le, Nat.ltb_lt. lia.
Qed.

Lemma triangle_in_bounds_spec (tri : TRIANGLE) (vertices : list VertexHandle) :
  triangle_in_bounds tri vertices = true <-> triangle_in_range tri (length vertices).
Proof.
  unfold triangle_in_bounds, triangle_in_range.
  rewrite !andb_true_iff, !index_in_bounds_spec. tauto.
Qed.

Lemma handle_at_in_range (vertices : list VertexHandle) (v : Z) :
  index_in_range v (length vertices) -> exists h, handle_at vertices v h.
Proof.
  intros [Hlo Hhi]. destruct (lookup_lt_is_Some_2 vertices (Z.to_nat v)) as [h Hh]; [lia|].
  by exists h.
Qed.

Lemma triangle_handles_in_range (vertices : list VertexHandle) (tri : TRIANGLE) :
  triangle_in_range tri (length vertices) ->
  exists a b c,
    handle_at vertices (v0 tri) a /\ handle_at vertices (v1 tri) b
    /\ handle_at vertices (v2 tri) c
    /\ triangle_handles vertices tri = Some [a; b; c].
Proof.
  intros (H0 & H1 & H2).
  apply handle_at_in_range in H0 as [a Ha], H1 as [b Hb], H2 as [c Hc].
  exists a, b, c. split; [exact Ha|]. split; [exact Hb|]. split; [exact Hc|].
  unfold triangle_handles.
  destruct Ha as [_ ->], Hb as [_ ->], Hc as [_ ->]. reflexivity.
Qed.

Lemma triangle_corners_inr polygonizer (vertices : list VertexHandle) i vx :
  triangle_corners polygonizer vertices i = inr vx ->
  triangle_in_range (get_triangle polygonizer i) (length vertices)
  /\ forall fh, face_of_triangle vertices (get_triangle polygonizer i) (CAddFace vx fh).
Proof.
  unfold triangle_corners. intros Hc.
  destruct (triangle_in_bounds _ _) eqn:Hb; [|done].
  apply triangle_in_bounds_spec in Hb. split; [done|]. intros fh.
  destruct (triangle_handles_in_range _ _ Hb) as (a & b & c & Ha & Hb' & Hc' & Hh).
  rewrite Hh in Hc. injection Hc as <-. by exists a, b, c, fh.
Qed.

Lemma triangle_corners_inl polygonizer (vertices : list VertexHandle) i f :
  triangle_corners polygonizer vertices i = inl f ->
  f = FatalError bounds_error
  /\ ~ triangle_in_range (get_triangle polygonizer i) (length vertices).
Proof.
  unfold triangle_corners. intros Hc.
  destruct (triangle_in_bounds _ _) eqn:Hb.
  - apply triangle_in_bounds_spec in Hb.
    destruct (triangle_handles_in_range _ _ Hb) as (a & b & c & _ & _ & _ & Hh).
    by rewrite Hh in Hc.
  - injection Hc as <-. split; [done|]. rewrite <- triangle_in_bounds_spec.
    by rewrite Hb.
Qed.

Lemma filter_all (p : Call -> bool) (l : list Call) :
  Forall (fun c => p c = true) l -> List.filter p l = l.
Proof. induction 1 as [|c l Hc _ IH]; simpl; [done|]. by rewrite Hc, IH. Qed.

Lemma filter_none (p : Call -> bool) (l : list Call) :
  Forall (fun c => p c = false) l -> List.filter p l = [].
Proof. induction 1 as [|c l Hc _ IH]; simpl; [done|]. by rewrite Hc, IH. Qed.

Lemma vertex_calls_kind {X} (req : X -> Vector3 * option Z * option Vector3)
    (xs : list X) (hs : list VertexHandle) :
  Forall (fun c : Call => is_addVertex c = true /\ is_addFace c = false)
    (zip_with (vertex_call req) xs hs).
Proof.
  revert hs. induction xs as [|x xs IH]; intros [|h hs]; simpl; try by constructor.
  constructor; [|apply IH]. unfold vertex_call. by destruct (req x) as [[p i] n].
Qed.

Lemma face_calls_kind {X} (pre : X -> Failure + list VertexHandle)
    (xs : list X) (F : list Call) :
  Forall2 (face_call_of pre) xs F ->
  Forall (fun c => is_addVertex c = false /\ is_addFace c = true) F.
Proof.
  induction 1 as [|x c xs F (vs & h & _ & ->) _ IH]; by constructor.
Qed.

Lemma added_in_export {X} (req : X -> Vector3 * option Z * option Vector3)
    (xs : list X) (hs : list VertexHandle) (F E : list Call) :
  Forall (fun c : Call => is_addVertex c = false /\ is_addFace c = true) F ->
  Forall (fun c : Call => is_addition c = false) E ->
  added_vertices (CBegin :: zip_with (vertex_call req) xs hs ++ F ++ E)
  = length (zip_with (vertex_call req) xs hs : list Call)
  /\ added_faces (CBegin :: zip_with (vertex_call req) xs hs ++ F ++ E) = length F.
Proof.
  intros HF HE. unfold added_vertices, added_faces. simpl.
  rewrite !List.filter_app.
  pose proof (vertex_calls_kind req xs hs) as HV.
  rewrite (filter_all is_addVertex (zip_with _ _ _))
    by (eapply Forall_impl; [exact HV|]; by intros c [? ?]).
  rewrite (filter_none is_addFace (zip_with _ _ _))
    by (eapply Forall_impl; [exact HV|]; by intros c [? ?]).
  rewrite (filter_none is_addVertex F)
    by (eapply Forall_impl; [exact HF|]; by intros c [? ?]).
  rewrite (filter_all is_addFace F)
    by (eapply Forall_impl; [exact HF|]; by intros c [? ?]).
  rewrite (filter_none is_addVertex E), (filter_none is_addFace E).
  - by rewrite !app_nil_r.
  - eapply Forall_impl; [exact HE|]. unfold is_addition.
    intros c Hc. by apply orb_false_iff in Hc as [_ ?].
  - eapply Forall_impl; [exact HE|]. unfold is_addition.
    intros c Hc. by apply orb_false_iff in Hc as [? _].
Qed.

Lemma collected_keeps (m : gmap Vertex_handle VertexHandle) xs hs v :
  is_Some (m !! v) -> is_Some (collected record_handle m xs hs !! v).
Proof.
  unfold collected. revert m hs.
  induction xs as [|x xs IH]; intros m [|h hs] Hm; simpl; try done.
  apply IH. unfold record_handle. simpl.
  rewrite lookup_insert_is_Some. destruct (decide (x = v)); auto.
Qed.

Lemma collected_total (m : gmap Vertex_handle VertexHandle) xs hs v :
  length hs = length xs -> v ∈ xs ->
  is_Some (collected record_handle m xs hs !! v).
Proof.
  revert m hs. induction xs as [|x xs IH]; intros m [|h hs] Hlen Hv;
    simpl in *; try done.
  - by apply elem_of_nil in Hv.
  - apply elem_of_cons in Hv as [-> | Hv].
    + change (collected record_handle m (x :: xs) (h :: hs))
        with (collected record_handle (<[x:=h]> m) xs hs).
      apply collected_keeps. rewrite lookup_insert_eq. by eexists.
    + change (collected record_handle m (x :: xs) (h :: hs))
        with (collected record_handle (<[x:=h]> m) xs hs).
      apply IH; [lia|done].
Qed.

Lemma collected_from (m : gmap Vertex_handle VertexHandle) xs hs v h :
  collected record_handle m xs hs !! v = Some h ->
  m !! v = Some h \/ (v, h) ∈ zip xs hs.
Proof.
  revert m hs. induction xs as [|x xs IH]; intros m [|h' hs] Hv;
    try (left; exact Hv).
  change (collected record_handle m (x :: xs) (h' :: hs))
    with (collected record_handle (<[x:=h']> m) xs hs) in Hv.
  apply IH in Hv as [Hv|Hv].
  - apply lookup_insert_Some in Hv as [[-> ->]|[_ Hv]].
    + right. simpl. apply elem_of_cons. by left.
    + by left.
  - right. simpl. apply elem_of_cons. by right.
Qed.

Lemma collected_not_in (m : gmap Vertex_handle VertexHandle) xs hs v :
  v ∉ xs -> collected record_handle m xs hs !! v = m !! v.
Proof.
  revert m hs. induction xs as [|x xs IH]; intros m [|h hs] Hv; try done.
  change (collected record_handle m (x :: xs) (h :: hs))
    with (collected record_handle (<[x:=h]> m) xs hs).
  apply not_elem_of_cons in Hv as [Hne Hv].
  rewrite IH by done. unfold record_handle. by rewrite lookup_insert_ne.
Qed.

Lemma collected_lookup (m : gmap Vertex_handle VertexHandle) xs hs k v h :
  NoDup xs -> xs !! k = Some v -> hs !! k = Some h ->
  collected record_handle m xs hs !! v = Some h.
Proof.
  intros Hnd. revert m hs k.
  induction Hnd as [|x xs Hx Hnd IH]; intros m [|h0 hs] k Hv Hh; try done.
  change (collected record_handle m (x :: xs) (h0 :: hs))
    with (collected record_handle (<[x:=h0]> m) xs hs).
  destruct k as [|k]; simpl in Hv, Hh.
  - injection Hv as ->. injection Hh as ->.
    rewrite collected_not_in by done. by rewrite lookup_insert_eq.
  - by eapply IH.
Qed.

Lemma collected_size (m : gmap Vertex_handle VertexHandle) xs hs :
  NoDup xs -> (forall x, x ∈ xs -> m !! x = None) -> length hs = length xs ->
  size (collected record_handle m xs hs) = (size m + length xs)%nat.
Proof.
  intros Hnd. revert m hs.
  induction Hnd as [|x xs Hx Hnd IH]; intros m [|h0 hs] Hfresh Hlen;
    simpl in Hlen; try done.
  change (collected record_handle m (x :: xs) (h0 :: hs))
    with (collected record_handle (<[x:=h0]> m) xs hs).
  rewrite IH.
  - rewrite map_size_insert_None by (apply Hfresh; by left). simpl. lia.
  - intros y Hy. rewrite lookup_insert_ne by (intros ->; done).
    apply Hfresh. by right.
  - lia.
Qed.

Lemma facet_vertex_indices_in_range idx :
  0 <= idx <= 3 ->
  exists i0 i1 i2,
    facet_vertex_indices idx = [i0; i1; i2]
    /\ (0 <= i0 /\ i0 < i1 /\ i1 < i2 /\ i2 <= 3)
    /\ (i0 <> idx /\ i1 <> idx /\ i2 <> idx).
Proof.
  intros Hidx.
  assert (Hcases : idx = 0 \/ idx = 1 \/ idx = 2 \/ idx = 3) by lia.
  destruct Hcases as [-> | [-> | [-> | ->]]].
  - exists 1, 2, 3. split; [reflexivity|lia].
  - exists 0, 2, 3. split; [reflexivity|lia].
  - exists 0, 1, 3. split; [reflexivity|lia].
  - exists 0, 1, 2. split; [reflexivity|lia].
Qed.

Lemma facet_vertex_indices_out_of_range idx :
  ~ 0 <= idx <= 3 -> facet_vertex_indices idx = [0; 1; 2; 3].
Proof.
  intros Hidx. unfold facet_vertex_indices. cbn.
  repeat case_decide; try reflexivity; lia.
Qed.

(** The array always ends up with three increasing entries of [0..3], none
  of them [facet_index]. *)
Lemma vertex_indices_spec idx :
  exists i0 i1 i2,
    vertex_indices idx = [i0; i1; i2]
    /\ (0 <= i0 /\ i0 < i1 /\ i1 < i2 /\ i2 <= 3)
    /\ (i0 <> idx /\ i1 <> idx /\ i2 <> idx).
Proof.
  unfold vertex_indices.
  destruct (decide (0 <= idx <= 3)) as [Hidx|Hidx].
  - destruct (facet_vertex_indices_in_range _ Hidx) as (i0 & i1 & i2 & -> & Hord & Hne).
    by exists i0, i1, i2.
  - rewrite (facet_vertex_indices_out_of_range _ Hidx).
    exists 0, 1, 2. split; [reflexivity|lia].
Qed.

Lemma vertex_indices_in_range idx :
  0 <= idx <= 3 -> vertex_indices idx = facet_vertex_indices idx.
Proof.
  intros Hidx. unfold vertex_indices.
  by destruct (facet_vertex_indices_in_range _ Hidx) as (i0 & i1 & i2 & -> & _).
Qed.

Lemma facet_corners_inr src (vmap : gmap Vertex_handle VertexHandle) fit vx :
  facet_corners src vmap fit = inr vx ->
  forall fh, facet_triangle src vmap fit (CAddFace vx fh).
Proof.
  unfold facet_corners. intros Hc fh.
  destruct (vertex_indices_spec fit.2) as (i0 & i1 & i2 & Hi & Hord & Hne).
  rewrite Hi in Hc. cbn in Hc.
  destruct (vmap !! vertex src fit.1 i0) as [a0|] eqn:H0; [|done].
  destruct (vmap !! vertex src fit.1 i1) as [a1|] eqn:H1; [|done].
  destruct (vmap !! vertex src fit.1 i2) as [a2|] eqn:H2; [|done].
  cbn in Hc. injection Hc as <-.
  by exists i0, i1, i2, a0, a1, a2, fh.
Qed.

Lemma facet_corners_inl src (vmap : gmap Vertex_handle VertexHandle) fit f :
  facet_corners src vmap fit = inl f ->
  f = Error unmapped_error
  /\ exists i, 0 <= i <= 3 /\ i <> fit.2 /\ vmap !! vertex src fit.1 i = None.
Proof.
  unfold facet_corners. intros Hc.
  destruct (vertex_indices_spec fit.2) as (i0 & i1 & i2 & Hi & Hord & Hne).
  rewrite Hi in Hc. cbn in Hc.
  destruct (vmap !! vertex src fit.1 i0) as [a0|] eqn:H0;
    [|injection Hc as <-; split; [done|]; exists i0; split; [lia|];
      by split; [apply Hne|]].
  destruct (vmap !! vertex src fit.1 i1) as [a1|] eqn:H1;
    [|injection Hc as <-; split; [done|]; exists i1; split; [lia|];
      by split; [apply Hne|]].
  destruct (vmap !! vertex src fit.1 i2) as [a2|] eqn:H2;
    [|injection Hc as <-; split; [done|]; exists i2; split; [lia|];
      by split; [apply Hne|]].
  done.
Qed.

Lemma rejected_is_last (init : list Call) c0 pre c post :
  Forall (fun c => rejected c = false) init ->
  init ++ [c0] = pre ++ c :: post ->
  rejected c = true ->
  post = [] /\ pre = init /\ c = c0.
Proof.
  intros Hinit. revert pre.
  induction Hinit as [|a init Ha _ IH]; intros [|p pre] Heq Hc; simpl in Heq.
  - by injection Heq as <- <-.
  - injection Heq as _ Heq. by destruct pre.
  - injection Heq as <- _. congruence.
  - injection Heq as <- Heq. destruct (IH pre Heq Hc) as (-> & -> & ->). done.
Qed.

Lemma none_rejected (cs pre : list Call) c post :
  Forall (fun c => rejected c = false) cs ->
  cs = pre ++ c :: post -> rejected c = true -> False.
Proof.
  intros Hcs -> Hc. apply Forall_app in Hcs as [_ Hcs].
  apply Forall_cons in Hcs as [Hc' _]. congruence.
Qed.

Lemma vertex_calls_accepted {X} (req : X -> Vector3 * option Z * option Vector3)
    (xs : list X) (hs : list VertexHandle) :
  Forall (fun h => isValidVertexHandle h = true) hs ->
  Forall (fun c : Call => rejected c = false) (zip_with (vertex_call req) xs hs).
Proof.
  intros Hhs. revert xs. induction Hhs as [|h hs Hh _ IH]; intros [|x xs]; simpl;
    try by constructor.
  constructor; [|apply IH]. unfold vertex_call. destruct (req x) as [[p i] n].
  simpl. by rewrite Hh.
Qed.

Lemma zip_with_snoc {X} (req : X -> Vector3 * option Z * option Vector3)
    (xs : list X) (hs0 : list VertexHandle) (h : VertexHandle) :
  (length (hs0 ++ [h]) <= length xs)%nat ->
  exists x, (zip_with (vertex_call req) xs (hs0 ++ [h]) : list Call)
            = zip_with (vertex_call req) xs hs0 ++ [vertex_call req x h].
Proof.
  revert hs0. induction xs as [|x xs IH]; intros hs0 Hlen.
  - rewrite length_app in Hlen. simpl in Hlen. lia.
  - destruct hs0 as [|h0 hs0]; simpl in *.
    + exists x. by destruct xs.
    + destruct (IH hs0) as [y Hy]; [lia|]. exists y. by rewrite Hy.
Qed.

Lemma anatomy_fails_fast {X Y A} (xs : list X) (ys : list Y)
    (pre : A -> Y -> Failure + list VertexHandle) (vmsg fmsg : string) (acc : A)
    (req : X -> Vector3 * option Z * option Vector3)
    (hs : list VertexHandle) (F E : list Call) (o : Outcome unit) (b' : Builder)
    (dst : MeshT) :
  performed (builder_new dst)
    (CBegin :: zip_with (vertex_call req) xs hs ++ F ++ E) b' ->
  (length hs <= length xs)%nat ->
  Forall2 (face_call_of (pre acc)) (take (length F) ys) F ->
  ending xs ys pre vmsg fmsg acc hs F E o ->
  fails_fast vmsg fmsg dst
    (mkRun o (builder_mesh b')
       (CBegin :: zip_with (vertex_call req) xs hs ++ F ++ E)).
Proof.
  intros Hperf Hlen Hall Hend p c post Hcalls Hrej.
  cbn [calls_made outcome mesh_after] in *.
  destruct o as [u|f].
  - apply ending_returned in Hend as (-> & _ & _ & Hvalid & Hacc).
    exfalso. eapply none_rejected; [|exact Hcalls|exact Hrej].
    constructor; [done|]. apply Forall_app. split; [by apply vertex_calls_accepted|].
    apply Forall_app. split; [done|]. by repeat constructor.
  - apply ending_thrown in Hend
      as (-> & [(-> & -> & hs0 & h & -> & Hvalid & Hbad)
               |(Hl & Hvalid & [(Hacc & _)|(-> & F0 & c0 & -> & Hacc & Hbad)])]).
    + destruct (zip_with_snoc req xs hs0 h Hlen) as [x Hx].
      rewrite !app_nil_r in Hcalls, Hperf. rewrite Hx in Hcalls, Hperf.
      assert (Hlast : rejected (vertex_call req x h : Call) = true
                      /\ is_addVertex (vertex_call req x h : Call) = true).
      { unfold vertex_call. destruct (req x) as [[p0 i] n]. simpl. by rewrite Hbad. }
      destruct Hlast as [_ Hkind].
      destruct (rejected_is_last
                  (CBegin :: zip_with (vertex_call req) xs hs0)
                  (vertex_call req x h) p c post) as (-> & -> & ->);
        [constructor; [done|by apply vertex_calls_accepted]|exact Hcalls|exact Hrej|].
      split; [done|]. split; [unfold rejection_error; by rewrite Hkind|].
      by exists b'.
    + exfalso. eapply none_rejected; [|exact Hcalls|exact Hrej].
      constructor; [done|]. apply Forall_app. split; [by apply vertex_calls_accepted|].
      apply Forall_app. split; [done|constructor].
    + rewrite app_nil_r in Hcalls, Hperf.
      assert (Hkind : is_addVertex c0 = false).
      { apply face_calls_kind in Hall. apply Forall_app in Hall as [_ Hall].
        by apply Forall_cons in Hall as [[? _] _]. }
      rewrite app_assoc in Hcalls, Hperf.
      destruct (rejected_is_last
                  (CBegin :: zip_with (vertex_call req) xs hs ++ F0) c0 p c post)
        as (-> & -> & ->);
        [constructor; [done|]; apply Forall_app; split;
           [by apply vertex_calls_accepted|done]
        |exact Hcalls|exact Hrej|].
      split; [done|]. split; [unfold rejection_error; by rewrite Hkind|].
      by exists b'.
Qed.

Lemma export_bracketed {X} (req : X -> Vector3 * option Z * option Vector3)
    (xs : list X) (hs : list VertexHandle) (F E : list Call) :
  Forall (fun c : Call => is_addVertex c = false /\ is_addFace c = true) F ->
  E = [] \/ E = [CEnd] ->
  bracketed_additions (CBegin :: zip_with (vertex_call req) xs hs ++ F ++ E).
Proof.
  intros HF HE. right. exists (zip_with (vertex_call req) xs hs ++ F), E.
  split; [by rewrite <- app_assoc|]. split; [|done].
  apply Forall_app. split.
  - eapply Forall_impl; [apply vertex_calls_kind|].
    intros c [Hc _]. unfold is_addition. by rewrite Hc.
  - eapply Forall_impl; [exact HF|].
    intros c [_ Hc]. unfold is_addition. rewrite Hc. by rewrite orb_true_r.
Qed.

Lemma exportMesh_Polygonizer_additive (polygonizer : Polygonizer) (dst : MeshT) :
  bracketed_additions (calls_made (exportMesh_Polygonizer polygonizer dst))
  /\ mutated_by_calls dst (exportMesh_Polygonizer polygonizer dst).
Proof.
  destruct (exportMesh_Polygonizer_anatomy polygonizer dst)
    as (hs & F & E & o & b' & Hrun & Hperf & _ & _ & Hall & Hend).
  rewrite Hrun. cbn [calls_made]. split.
  - apply export_bracketed; [by eapply face_calls_kind|].
    destruct o as [u|f].
    + apply ending_returned in Hend as (-> & _). by right.
    + apply ending_thrown in Hend as (-> & _). by left.
  - right. by exists b'.
Qed.

Lemma exportMesh_C3t3_additive (src : C3t3) (dst : MeshT) :
  bracketed_additions (calls_made (exportMesh_C3t3 src dst))
  /\ mutated_by_calls dst (exportMesh_C3t3 src dst).
Proof.
  destruct (exportMesh_C3t3_anatomy src dst)
    as (hs & F & E & o & b' & Hrun & Hperf & _ & _ & Hall & Hend).
  rewrite Hrun. cbn [calls_made]. split.
  - apply export_bracketed; [by eapply face_calls_kind|].
    destruct o as [u|f].
    + apply ending_returned in Hend as (-> & _). by right.
    + apply ending_thrown in Hend as (-> & _). by left.
  - right. by exists b'.
Qed.

(** ** The claims *)

(** C1, as the code has it: [BloomenthalEval] refuses a null functor with a
  fatal error before the polygonizer is built or the mesh touched, and takes
  any other pointer; [CgalEval] makes no such check, so [meshBoissonnatOudot]
  called with a null functor builds the domain on the null pointer and goes on
  to [make_mesh_3] and the export. *)
Theorem null_functor_at_the_entry_points :
  (forall march bounding_ball pt_near_surface options (result : MeshT),
      meshBloomenthal march None bounding_ball pt_near_surface options result
      = mkRun (Thrown (FatalError null_error)) result [])
  /\ (forall f, BloomenthalEval.ctor (Some f) = Returned (BloomenthalEval.mk (Some f)))
  /\ BloomenthalEval.ctor None = Thrown (FatalError null_error)
  /\ CgalEval.ctor None = Returned (CgalEval.mk None)
  /\ (forall make_mesh_3 radiansToDegrees bounding_ball options (result : MeshT),
        exists criteria,
          meshBoissonnatOudot make_mesh_3 radiansToDegrees None bounding_ball options
            result
          = exportMesh_C3t3
              (make_mesh_3
                 (mkMesh_domain (CgalEval.mk None) (bounding_sphere_of bounding_ball))
                 criteria false false)
              result).
Proof.
  split; [intros; reflexivity|].
  split; [intros; reflexivity|].
  split; [reflexivity|].
  split; [reflexivity|].
  intros make_mesh_3 radiansToDegrees bounding_ball options result.
  unfold meshBoissonnatOudot.
  change (CgalEval.ctor None) with (Returned (CgalEval.mk None)).
  cbv beta iota zeta. eexists. reflexivity.
Qed.

(** C2: [meshBloomenthal], given a functor, runs the polygonizer with a cell
  size and a step budget resolved from the options: the cell size is the
  radius of the bounding ball divided by 10 when [cell_size] is negative and
  [cell_size] otherwise (either one as the [float] the polygonizer takes); the
  budget is 10 when [max_search_steps] is negative and [max_search_steps]
  otherwise. *)
Theorem meshBloomenthal_resolves_sentinels
    march f bounding_ball pt_near_surface options (result : MeshT) :
  exists (size : float) (bounds : Z),
    meshBloomenthal march (Some f) bounding_ball pt_near_surface options result
    = exportMesh_Polygonizer
        (march (BloomenthalEval.mk (Some f)) size bounds
           (Options.tetrahedralize_cubes options)
           (to_float (vx pt_near_surface)) (to_float (vy pt_near_surface))
           (to_float (vz pt_near_surface)))
        result
    /\ (negative (Options.cell_size options) ->
        size = to_float (double_div (getRadius bounding_ball) (double_of_Z 10)))
    /\ (~ negative (Options.cell_size options) ->
        size = to_float (Options.cell_size options))
    /\ (Options.max_search_steps options < 0 -> bounds = 10)
    /\ (0 <= Options.max_search_steps options ->
        bounds = Options.max_search_steps options).
Proof.
  unfold meshBloomenthal, negative.
  change (BloomenthalEval.ctor (Some f)) with (Returned (BloomenthalEval.mk (Some f))).
  cbv beta iota zeta.
  eexists _, _. split; [reflexivity|].
  destruct (double_ltb (Options.cell_size options) (double_of_Z 0)) eqn:Hneg.
  - split; [reflexivity|]. split; [intros Hn; by destruct Hn|].
    destruct (Z.ltb_spec (Options.max_search_steps options) 0); split; intros; lia.
  - split; [intros Hn; discriminate Hn|]. split; [reflexivity|].
    destruct (Z.ltb_spec (Options.max_search_steps options) 0); split; intros; lia.
Qed.

(** C3: [meshBoissonnatOudot] runs [make_mesh_3] under criteria resolved from
  the options: the facet angle is 30 when [min_facet_angle] is negative and
  [min_facet_angle] converted to degrees otherwise; the facet size is 0.1 when
  [min_delaunay_radius] is negative and [min_delaunay_radius] otherwise; the
  facet distance is 0.1 when [min_center_separation] is negative and
  [min_center_separation] otherwise; the cell radius-edge ratio is 2, whatever
  the options. *)
Theorem meshBoissonnatOudot_resolves_sentinels
    make_mesh_3 radiansToDegrees surface_functor bounding_ball options
    (result : MeshT) :
  exists criteria : Mesh_criteria,
    meshBoissonnatOudot make_mesh_3 radiansToDegrees surface_functor bounding_ball
      options result
    = exportMesh_C3t3
        (make_mesh_3
           (mkMesh_domain (CgalEval.mk surface_functor)
              (bounding_sphere_of bounding_ball))
           criteria false false)
        result
    /\ (negative (Options.min_facet_angle options) ->
        facet_angle criteria = double_of_Z 30)
    /\ (~ negative (Options.min_facet_angle options) ->
        facet_angle criteria = radiansToDegrees (Options.min_facet_angle options))
    /\ (negative (Options.min_delaunay_radius options) ->
        facet_size criteria = double_0_1)
    /\ (~ negative (Options.min_delaunay_radius options) ->
        facet_size criteria = Options.min_delaunay_radius options)
    /\ (negative (Options.min_center_separation options) ->
        facet_distance criteria = double_0_1)
    /\ (~ negative (Options.min_center_separation options) ->
        facet_distance criteria = Options.min_center_separation options)
    /\ cell_radius_edge_ratio criteria = double_of_Z 2.
Proof.
  unfold meshBoissonnatOudot, negative.
  change (CgalEval.ctor surface_functor) with (Returned (CgalEval.mk surface_functor)).
  cbv beta iota zeta.
  eexists. split; [reflexivity|]. cbn [facet_angle facet_size facet_distance
                                       cell_radius_edge_ratio].
  destruct (double_ltb (Options.min_facet_angle options) (double_of_Z 0));
    destruct (double_ltb (Options.min_delaunay_radius options) (double_of_Z 0));
    destruct (double_ltb (Options.min_center_separation options) (double_of_Z 0));
    repeat split; intros Hn; try reflexivity; try discriminate Hn; by destruct Hn.
Qed.

(** C4: when the Bloomenthal export succeeds, the calls it made are [begin],
  one [addVertex] per raw vertex in index order (vertex [i] with its position,
  its index [i] and its normal), one [addFace] per raw triangle in order, on
  the handles that the insertions of its three vertices returned, and [end]; so
  as many vertices were added as there are raw vertices and as many faces as
  there are raw triangles. These calls were performed, in this order, on the
  builder of the target mesh, every one of them accepted, and the mesh after
  the export is the mesh that builder holds after the last of them. *)
Theorem exportMesh_Polygonizer_exports_every_primitive
    (polygonizer : Polygonizer) (dst : MeshT) :
  outcome (exportMesh_Polygonizer polygonizer dst) = Returned tt ->
  exists (hs : list VertexHandle) (F : list Call) (b' : Builder),
    calls_made (exportMesh_Polygonizer polygonizer dst)
    = CBegin
      :: zip_with
           (fun i h =>
              CAddVertex (position (get_vertex polygonizer i)) (Some (Z.of_nat i))
                (Some (normal (get_normal polygonizer i))) h)
           (seq 0 (no_vertices polygonizer)) hs
      ++ F ++ [CEnd]
    /\ performed (builder_new dst)
         (calls_made (exportMesh_Polygonizer polygonizer dst)) b'
    /\ mesh_after (exportMesh_Polygonizer polygonizer dst) = builder_mesh b'
    /\ length hs = no_vertices polygonizer
    /\ Forall (fun h => isValidVertexHandle h = true) hs
    /\ Forall2 (fun i c => face_of_triangle hs (get_triangle polygonizer i) c)
         (seq 0 (no_triangles polygonizer)) F
    /\ Forall (fun c => rejected c = false) F
    /\ added_vertices (calls_made (exportMesh_Polygonizer polygonizer dst))
       = no_vertices polygonizer
    /\ added_faces (calls_made (exportMesh_Polygonizer polygonizer dst))
       = no_triangles polygonizer.
Proof.
  intros Hok.
  destruct (exportMesh_Polygonizer_anatomy polygonizer dst)
    as (hs & F & E & o & b' & Hrun & Hperf & _ & _ & Hall & Hend).
  rewrite Hrun in Hok |- *. cbn [outcome calls_made mesh_after] in Hok |- *. subst o.
  inversion Hend as [HE Hl HlF Hvalid Hacc| | |]; subst E.
  rewrite length_seq in Hl, HlF.
  rewrite take_ge in Hall by (rewrite length_seq; lia).
  exists hs, F, b'. split; [reflexivity|]. split; [exact Hperf|].
  split; [reflexivity|]. split; [done|]. split; [done|].
  split.
  { eapply Forall2_impl; [exact Hall|].
    intros i c (vx & fh & Hpre & ->). by apply triangle_corners_inr. }
  split; [done|].
  destruct (added_in_export (polygonizer_vertex_request polygonizer)
              (seq 0 (no_vertices polygonizer)) hs F [CEnd]) as [HV HF].
  { by eapply face_calls_kind. }
  { by repeat constructor. }
  split.
  - etransitivity; [exact HV|]. rewrite length_zip_with, length_seq. lia.
  - etransitivity; [exact HF|]. done.
Qed.

(** C5: the triangle loop checks the three indices of every triangle against
  [[0, vertices.size())]. A triangle with an index outside that range stops
  the export with the fatal error of the assertion, and no call is made for it;
  a triangle with its indices in range is passed to [addFace], once, on the
  handles stored at those indices. For the export as a whole: it returns only
  if every triangle is in range; a fatal error is that of the assertion, raised
  at an out-of-range triangle [k] after exactly [k] faces were added; and no
  read of [vertices] is ever out of bounds. *)
Theorem polygonizer_triangle_indices_checked (polygonizer : Polygonizer) :
  (forall (vertices : list VertexHandle) i (s : Session),
      ~ triangle_in_range (get_triangle polygonizer i) (length vertices) ->
      polygonizer_triangle_step polygonizer vertices i tt s
      = (Thrown (FatalError bounds_error), s))
  /\ (forall (vertices : list VertexHandle) i (s : Session),
        triangle_in_range (get_triangle polygonizer i) (length vertices) ->
        exists a b c,
          handle_at vertices (v0 (get_triangle polygonizer i)) a
          /\ handle_at vertices (v1 (get_triangle polygonizer i)) b
          /\ handle_at vertices (v2 (get_triangle polygonizer i)) c
          /\ polygonizer_triangle_step polygonizer vertices i tt s
             = (if isValidFaceHandle (builder_addFace [a; b; c] (builder s)).1
                then Returned tt
                else Thrown (Error triangle_error),
                mkSession (builder_addFace [a; b; c] (builder s)).2
                  (calls s
                   ++ [CAddFace [a; b; c] (builder_addFace [a; b; c] (builder s)).1])))
  /\ (forall dst : MeshT,
        outcome (exportMesh_Polygonizer polygonizer dst) = Returned tt ->
        forall k, (k < no_triangles polygonizer)%nat ->
          triangle_in_range (get_triangle polygonizer k) (no_vertices polygonizer))
  /\ (forall (dst : MeshT) msg,
        outcome (exportMesh_Polygonizer polygonizer dst) = Thrown (FatalError msg) ->
        msg = bounds_error
        /\ exists k, (k < no_triangles polygonizer)%nat
             /\ ~ triangle_in_range (get_triangle polygonizer k)
                    (no_vertices polygonizer)
             /\ added_faces (calls_made (exportMesh_Polygonizer polygonizer dst)) = k)
  /\ (forall dst : MeshT,
        outcome (exportMesh_Polygonizer polygonizer dst) <> Thrown MemoryFault).
Proof.
  split; [|split; [|split; [|split]]].
  - intros vertices i s Hout.
    rewrite polygonizer_triangle_step_shape. unfold checked_face.
    destruct (triangle_corners polygonizer vertices i) as [f|vx] eqn:Hc.
    + apply triangle_corners_inl in Hc as [-> _]. reflexivity.
    + apply triangle_corners_inr in Hc as [Hin _]. by destruct Hout.
  - intros vertices i s Hin.
    destruct (triangle_handles_in_range _ _ Hin) as (a & b & c & Ha & Hb & Hc & Hh).
    exists a, b, c. split; [done|]. split; [done|]. split; [done|].
    rewrite polygonizer_triangle_step_shape. unfold checked_face, triangle_corners.
    apply triangle_in_bounds_spec in Hin. rewrite Hin, Hh.
    destruct (builder_addFace [a; b; c] (builder s)) as [h b']. simpl.
    by destruct (isValidFaceHandle h).
  - intros dst Hok k Hk.
    destruct (exportMesh_Polygonizer_anatomy polygonizer dst)
      as (hs & F & E & o & b' & Hrun & _ & _ & _ & Hall & Hend).
    rewrite Hrun in Hok. cbn [outcome] in Hok. subst o.
    inversion Hend as [HE Hl HlF Hvalid Hacc| | |]; subst E.
    rewrite length_seq in Hl, HlF.
    rewrite take_ge in Hall by (rewrite length_seq; lia).
    destruct (lookup_lt_is_Some_2 F k) as [c Hc]; [lia|].
    assert (Hi : seq 0 (no_triangles polygonizer) !! k = Some k)
      by (by apply lookup_seq).
    destruct (Forall2_lookup_lr _ _ _ _ _ _ Hall Hi Hc) as (vx & fh & Hpre & _).
    apply triangle_corners_inr in Hpre as [Hin _]. by rewrite Hl in Hin.
  - intros dst msg Hfail.
    destruct (exportMesh_Polygonizer_anatomy polygonizer dst)
      as (hs & F & E & o & b' & Hrun & _ & _ & _ & Hall & Hend).
    rewrite Hrun in Hfail |- *. cbn [outcome calls_made] in Hfail |- *. subst o.
    inversion Hend as [| |y f HE Hl Hvalid Hacc Hy Hpre Hf|]; subst E.
    rewrite length_seq in Hl. subst f.
    apply lookup_seq in Hy as [-> Hlt]. simpl in Hpre, Hlt.
    apply triangle_corners_inl in Hpre as [Hmsg Hout].
    injection Hmsg as ->. split; [done|].
    exists (length F). split; [done|]. split; [by rewrite <- Hl|].
    destruct (added_in_export (polygonizer_vertex_request polygonizer)
                (seq 0 (no_vertices polygonizer)) hs F []) as [_ HF].
    { by eapply face_calls_kind. }
    { constructor. }
    exact HF.
  - intros dst Hfault.
    destruct (exportMesh_Polygonizer_anatomy polygonizer dst)
      as (hs & F & E & o & b' & Hrun & _ & _ & _ & Hall & Hend).
    rewrite Hrun in Hfault. cbn [outcome] in Hfault. subst o.
    inversion Hend as [| |y f HE Hl Hvalid Hacc Hy Hpre Hf|]; subst.
    by apply triangle_corners_inl in Hpre as [? _].
Qed.


(** C7: when the refinement export succeeds, its calls are [begin], one
  [addVertex] per finite vertex in iteration order, one [addFace] per facet of
  the complex in order, and [end], all performed on the builder of the target
  mesh. With [hs] the handles that these [addVertex] calls returned, the face
  of a facet is made of the handles that the identity map of [hs] gives for
  the three corners of the facet's cell whose index differs from the facet's,
  in increasing order of the index; an entry of that map pairs a finite vertex
  with the handle its insertion returned, and when the finite vertices are
  pairwise distinct the [k]-th of them is mapped to the [k]-th handle. For a
  single facet: with an index in [0..3] and its three other corners mapped,
  the facet step makes one [addFace] call, on the handles mapped from these
  corners. *)
Theorem exportMesh_C3t3_facet_triangles (src : C3t3) :
  (forall dst : MeshT,
      outcome (exportMesh_C3t3 src dst) = Returned tt ->
      exists (hs : list VertexHandle) (F : list Call) (b' : Builder),
        calls_made (exportMesh_C3t3 src dst)
        = CBegin
          :: zip_with
               (fun vit h =>
                  CAddVertex
                    (mkVector3 (px (point src vit)) (py (point src vit))
                       (pz (point src vit)))
                    None None h)
               (finite_vertices src) hs
          ++ F ++ [CEnd]
        /\ performed (builder_new dst) (calls_made (exportMesh_C3t3 src dst)) b'
        /\ mesh_after (exportMesh_C3t3 src dst) = builder_mesh b'
        /\ length hs = length (finite_vertices src)
        /\ Forall (fun h => isValidVertexHandle h = true) hs
        /\ Forall2 (facet_triangle src (identity_map src hs)) (facets_in_complex src) F
        /\ Forall (fun c => rejected c = false) F
        /\ (forall v h, identity_map src hs !! v = Some h ->
              (v, h) ∈ zip (finite_vertices src) hs)
        /\ (NoDup (finite_vertices src) ->
            forall k v h,
              finite_vertices src !! k = Some v -> hs !! k = Some h ->
              identity_map src hs !! v = Some h))
  /\ (forall (vmap : gmap Vertex_handle VertexHandle) cell idx (s : Session),
        0 <= idx <= 3 ->
        (forall i, 0 <= i <= 3 -> i <> idx -> is_Some (vmap !! vertex src cell i)) ->
        exists vx,
          (forall fh, facet_triangle src vmap (cell, idx) (CAddFace vx fh))
          /\ c3t3_facet_step src vmap (cell, idx) tt s
             = (if isValidFaceHandle (builder_addFace vx (builder s)).1
                then Returned tt
                else Thrown (Error c3t3_triangle_error),
                mkSession (builder_addFace vx (builder s)).2
                  (calls s ++ [CAddFace vx (builder_addFace vx (builder s)).1]))).
Proof.
  split.
  - intros dst Hok.
    destruct (exportMesh_C3t3_anatomy src dst)
      as (hs & F & E & o & b' & Hrun & Hperf & Hlen & _ & Hall & Hend).
    rewrite Hrun in Hok |- *. cbn [outcome calls_made mesh_after] in Hok |- *. subst o.
    inversion Hend as [HE Hl HlF Hvalid Hacc| | |]; subst E.
    rewrite take_ge in Hall by lia.
    exists hs, F, b'.
    split; [reflexivity|]. split; [exact Hperf|]. split; [reflexivity|].
    split; [done|]. split; [done|].
    split.
    { eapply Forall2_impl; [exact Hall|].
      intros fit c (vx & fh & Hpre & ->). by apply facet_corners_inr. }
    split; [done|].
    split.
    { intros v h Hv. apply collected_from in Hv as [Hv|Hv]; [|done].
      by rewrite lookup_empty in Hv. }
    intros Hnd k v h Hv Hh. by eapply collected_lookup.
  - intros vmap cell idx s Hidx Hmapped.
    rewrite c3t3_facet_step_shape. unfold checked_face.
    destruct (facet_corners src vmap (cell, idx)) as [f|vx] eqn:Hc.
    + apply facet_corners_inl in Hc as (_ & i & Hi & Hne & Hnone).
      simpl in *. destruct (Hmapped i Hi Hne) as [h Hh]. congruence.
    + exists vx. split; [by apply facet_corners_inr|].
      destruct (builder_addFace vx (builder s)) as [h b']. simpl.
      by destruct (isValidFaceHandle h).
Qed.

(** C8: in both exports, an [addVertex] or [addFace] that returns an invalid
  handle is the last call made on the builder: the export throws its error
  then, and the mesh stays as that call left it (nothing is undone). The calls
  of a run are [begin], at most one [addVertex] per raw vertex in order, at most
  one [addFace] per raw triangle or facet in order, and [end] if the export
  returns: no insertion is made twice. *)
Theorem rejected_insertion_aborts_export :
  (forall (polygonizer : Polygonizer) (dst : MeshT),
      fails_fast vertex_error triangle_error dst
        (exportMesh_Polygonizer polygonizer dst)
      /\ exists (hs : list VertexHandle) (F E : list Call),
           calls_made (exportMesh_Polygonizer polygonizer dst)
           = CBegin
             :: zip_with
                  (fun i h =>
                     CAddVertex (position (get_vertex polygonizer i))
                       (Some (Z.of_nat i))
                       (Some (normal (get_normal polygonizer i))) h)
                  (seq 0 (no_vertices polygonizer)) hs
             ++ F ++ E
           /\ Forall2 (fun i c => face_of_triangle hs (get_triangle polygonizer i) c)
                (take (length F) (seq 0 (no_triangles polygonizer))) F
           /\ (E = [] \/ E = [CEnd]))
  /\ (forall (src : C3t3) (dst : MeshT),
        fails_fast c3t3_vertex_error c3t3_triangle_error dst (exportMesh_C3t3 src dst)
        /\ exists (hs : list VertexHandle) (F E : list Call),
             calls_made (exportMesh_C3t3 src dst)
             = CBegin
               :: zip_with
                    (fun vit h =>
                       CAddVertex
                         (mkVector3 (px (point src vit)) (py (point src vit))
                            (pz (point src vit)))
                         None None h)
                    (finite_vertices src) hs
               ++ F ++ E
             /\ Forall2 (facet_triangle src (identity_map src hs))
                  (take (length F) (facets_in_complex src)) F
             /\ (E = [] \/ E = [CEnd])).
Proof.
  split.
  - intros polygonizer dst.
    destruct (exportMesh_Polygonizer_anatomy polygonizer dst)
      as (hs & F & E & o & b' & Hrun & Hperf & Hlen & _ & Hall & Hend).
    rewrite Hrun. split.
    + eapply anatomy_fails_fast; [exact Hperf|by rewrite length_seq|exact Hall|exact Hend].
    + exists hs, F, E. cbn [calls_made]. split; [reflexivity|]. split.
      * eapply Forall2_impl; [exact Hall|].
        intros i c (vx & fh & Hpre & ->). by apply triangle_corners_inr.
      * destruct o as [u|f].
        -- apply ending_returned in Hend as (-> & _). by right.
        -- apply ending_thrown in Hend as (-> & _). by left.
  - intros src dst.
    destruct (exportMesh_C3t3_anatomy src dst)
      as (hs & F & E & o & b' & Hrun & Hperf & Hlen & _ & Hall & Hend).
    rewrite Hrun. split.
    + eapply anatomy_fails_fast; [exact Hperf|exact Hlen|exact Hall|exact Hend].
    + exists hs, F, E. cbn [calls_made]. split; [reflexivity|]. split.
      * eapply Forall2_impl; [exact Hall|].
        intros fit c (vx & fh & Hpre & ->). by apply facet_corners_inr.
      * destruct o as [u|f].
        -- apply ending_returned in Hend as (-> & _). by right.
        -- apply ending_thrown in Hend as (-> & _). by left.
Qed.

Section Frame.

(** [keeps m m'] : what the mesh [m] holds, [m'] still holds. The builder is
  taken to add only: making a builder, [begin], [end], [addVertex] and
  [addFace] each keep what the mesh holds. *)
Variable keeps : MeshT -> MeshT -> Prop.
Hypothesis keeps_refl : forall m, keeps m m.
Hypothesis keeps_trans : forall m1 m2 m3, keeps m1 m2 -> keeps m2 m3 -> keeps m1 m3.
Hypothesis new_keeps : forall m, keeps m (builder_mesh (builder_new m)).
Hypothesis begin_keeps :
  forall b, keeps (builder_mesh b) (builder_mesh (builder_begin b)).
Hypothesis end_keeps :
  forall b, keeps (builder_mesh b) (builder_mesh (builder_end b)).
Hypothesis addVertex_keeps :
  forall p i n b, keeps (builder_mesh b) (builder_mesh (builder_addVertex p i n b).2).
Hypothesis addFace_keeps :
  forall vs b, keeps (builder_mesh b) (builder_mesh (builder_addFace vs b).2).

Lemma performed_keeps b cs b' :
  performed b cs b' -> keeps (builder_mesh b) (builder_mesh b').
Proof.
  induction 1 as [b|b c b1 cs b2 Hstep _ IH]; [apply keeps_refl|].
  eapply keeps_trans; [|exact IH].
  destruct Hstep; auto.
Qed.

Lemma mutated_by_calls_keeps (result : MeshT) (run : Run) :
  mutated_by_calls result run -> keeps result (mesh_after run).
Proof.
  intros [[_ ->]|(b' & Hperf & ->)]; [apply keeps_refl|].
  eapply keeps_trans; [apply new_keeps|]. by eapply performed_keeps.
Qed.

(** C9: whatever the arguments of [meshBloomenthal] and [meshBoissonnatOudot],
  the calls made on the builder are none (when the functor is refused) or
  [begin], then [addVertex] and [addFace] calls only, then [end] when the run
  returns; the mesh afterwards is the caller's mesh as these calls left it; and,
  the builder adding only, it keeps all that the caller's mesh held, however
  the run ended. *)
Theorem entry_points_only_add
    march make_mesh_3 radiansToDegrees surface_functor bounding_ball pt_near_surface
    options_b options_bo (result : MeshT) :
  let run_b :=
    meshBloomenthal march surface_functor bounding_ball pt_near_surface options_b
      result in
  let run_bo :=
    meshBoissonnatOudot make_mesh_3 radiansToDegrees surface_functor bounding_ball
      options_bo result in
  (bracketed_additions (calls_made run_b)
   /\ mutated_by_calls result run_b
   /\ keeps result (mesh_after run_b))
  /\ (bracketed_additions (calls_made run_bo)
      /\ mutated_by_calls result run_bo
      /\ keeps result (mesh_after run_bo)).
Proof.
  intros run_b run_bo.
  assert (Hb : bracketed_additions (calls_made run_b) /\ mutated_by_calls result run_b).
  { subst run_b. unfold meshBloomenthal.
    destruct (BloomenthalEval.ctor surface_functor) as [func|f].
    - apply exportMesh_Polygonizer_additive.
    - split; [by left|]. by left. }
  assert (Hbo : bracketed_additions (calls_made run_bo)
                /\ mutated_by_calls result run_bo).
  { subst run_bo. unfold meshBoissonnatOudot.
    destruct (CgalEval.ctor surface_functor) as [func|f].
    - apply exportMesh_C3t3_additive.
    - split; [by left|]. by left. }
  destruct Hb as [Hb1 Hb2], Hbo as [Hbo1 Hbo2].
  split; (split; [done|]; split; [done|]); by apply mutated_by_calls_keeps.
Qed.

End Frame.

(** C10: an empty reconstruction result is exported without error: the only
  calls on the builder are [begin] and [end]. *)
Theorem empty_result_exports_nothing
    (polygonizer : Polygonizer) (src : C3t3) (dst : MeshT) :
  no_vertices polygonizer = 0%nat ->
  no_triangles polygonizer = 0%nat ->
  finite_vertices src = [] ->
  facets_in_complex src = [] ->
  exportMesh_Polygonizer polygonizer dst
  = mkRun (Returned tt)
      (builder_mesh (builder_end (builder_begin (builder_new dst))))
      [CBegin; CEnd]
  /\ exportMesh_C3t3 src dst
     = mkRun (Returned tt)
         (builder_mesh (builder_end (builder_begin (builder_new dst))))
         [CBegin; CEnd].
Proof.
  intros Hv Ht Hfv Hf. split.
  - unfold exportMesh_Polygonizer, run_export, exportMesh_Polygonizer_body.
    rewrite Hv, Ht. reflexivity.
  - unfold exportMesh_C3t3, run_export, exportMesh_C3t3_body.
    rewrite Hfv, Hf. reflexivity.
Qed.

(** ** Further properties of the exports and entry points *)

Lemma ending_closing {X Y A} (xs : list X) (ys : list Y)
    (pre : A -> Y -> Failure + list VertexHandle) vmsg fmsg acc hs F E o :
  ending xs ys pre vmsg fmsg acc hs F E o ->
  (o = Returned tt /\ E = [CEnd]) \/ (exists f, o = Thrown f /\ E = []).
Proof.
  intros Hend. destruct o as [[]|f].
  - apply ending_returned in Hend as (-> & _). by left.
  - apply ending_thrown in Hend as (-> & _). right. by exists f.
Qed.

Lemma ending_face_made {X Y A} (xs : list X) (ys : list Y)
    (pre : A -> Y -> Failure + list VertexHandle) vmsg fmsg acc hs F E o :
  ending xs ys pre vmsg fmsg acc hs F E o ->
  F <> [] ->
  length hs = length xs /\ Forall (fun h => isValidVertexHandle h = true) hs.
Proof.
  intros Hend HF. destruct o as [u|f].
  - by apply ending_returned in Hend as (_ & ? & _ & ? & _).
  - apply ending_thrown in Hend as (_ & [(_ & ? & _)|(? & ? & _)]); done.
Qed.

Lemma shape_faces_on_returned_handles {X Y A} (xs : list X) (ys : list Y)
    (pre : A -> Y -> Failure + list VertexHandle) (vmsg fmsg : string) (acc : A)
    (req : X -> Vector3 * option Z * option Vector3)
    (hs : list VertexHandle) (F E : list Call) (o : Outcome unit) :
  (length hs <= length xs)%nat ->
  Forall2 (face_call_of (pre acc)) (take (length F) ys) F ->
  ending xs ys pre vmsg fmsg acc hs F E o ->
  (forall y vs (fh : FaceHandle), pre acc y = inr vs ->
     length vs = 3%nat /\ forall h, h ∈ vs -> h ∈ hs) ->
  faces_on_returned_handles (CBegin :: zip_with (vertex_call req) xs hs ++ F ++ E).
Proof.
  intros Hlen Hall Hend Hpre j vs fh Hj.
  destruct j as [|j0]; [discriminate Hj|]. simpl in Hj.
  assert (HlenV : length (zip_with (vertex_call req) xs hs : list Call) = length hs)
    by (rewrite length_zip_with; lia).
  apply lookup_app_Some in Hj as [Hj|[Hge Hj]].
  { pose proof (vertex_calls_kind req xs hs) as HV.
    rewrite Forall_lookup in HV. destruct (HV _ _ Hj) as [Hkind _].
    discriminate Hkind. }
  apply lookup_app_Some in Hj as [Hj|[_ Hj]].
  - assert (HF : F <> []) by (intros ->; by rewrite lookup_nil in Hj).
    destruct (ending_face_made _ _ _ _ _ _ _ _ _ _ Hend HF) as [_ Hvalid].
    destruct (Forall2_lookup_r _ _ _ _ _ Hall Hj) as (y & _ & vs' & fh' & Hp & Heq).
    injection Heq as <- <-.
    destruct (Hpre y vs fh Hp) as [H3 Hin]. split; [exact H3|].
    intros h Hh. apply Hin in Hh. split.
    { rewrite Forall_forall in Hvalid. by apply Hvalid. }
    apply list_elem_of_lookup_1 in Hh as [n Hn].
    pose proof (lookup_lt_Some _ _ _ Hn) as Hlt.
    destruct (lookup_lt_is_Some_2 xs n) as [x Hx]; [lia|].
    exists (S n). split; [lia|].
    unfold returned_at. simpl. rewrite lookup_app_l by lia.
    rewrite lookup_zip_with, Hx. simpl. rewrite Hn. simpl.
    unfold vertex_call. destruct (req x) as [[p i] n0]. by exists p, i, n0.
  - destruct (ending_closing _ _ _ _ _ _ _ _ _ _ Hend) as [[_ ->]|(f & _ & ->)].
    + by destruct (j0 - _ - _)%nat as [|[|?]].
    + by rewrite lookup_nil in Hj.
Qed.

Lemma triangle_corners_handles polygonizer (hs : list VertexHandle) i vs :
  triangle_corners polygonizer hs i = inr vs ->
  length vs = 3%nat /\ forall h, h ∈ vs -> h ∈ hs.
Proof.
  unfold triangle_corners, triangle_handles. intros Hc.
  destruct (triangle_in_bounds _ _); [|done].
  destruct (hs !! _) as [a|] eqn:Ha; [|done].
  destruct (hs !! Z.to_nat (v1 _)) as [b|] eqn:Hb; [|done].
  destruct (hs !! Z.to_nat (v2 _)) as [c|] eqn:Hc'; [|done].
  injection Hc as <-. split; [done|]. intros h Hh.
  apply elem_of_cons in Hh as [-> | Hh]; [by eapply list_elem_of_lookup_2|].
  apply elem_of_cons in Hh as [-> | Hh]; [by eapply list_elem_of_lookup_2|].
  apply list_elem_of_singleton in Hh as ->. by eapply list_elem_of_lookup_2.
Qed.

Lemma facet_corners_handles src (hs : list VertexHandle) fit vs (fh : FaceHandle) :
  facet_corners src (collected record_handle ∅ (finite_vertices src) hs) fit = inr vs ->
  length vs = 3%nat /\ forall h, h ∈ vs -> h ∈ hs.
Proof.
  intros Hc. pose proof (facet_corners_inr _ _ _ _ Hc) as Htri.
  destruct (Htri fh) as (i0 & i1 & i2 & a0 & a1 & a2 & fh' & _ & _ & H0 & H1 & H2 & Heq).
  injection Heq as -> _. split; [done|].
  assert (Hfrom : forall v a,
             collected record_handle ∅ (finite_vertices src) hs !! v = Some a -> a ∈ hs).
  { intros v a Hv. apply collected_from in Hv as [Hv|Hv].
    - by rewrite lookup_empty in Hv.
    - by apply elem_of_zip_r in Hv. }
  intros h Hh.
  apply elem_of_cons in Hh as [-> | Hh]; [by eapply Hfrom|].
  apply elem_of_cons in Hh as [-> | Hh]; [by eapply Hfrom|].
  apply list_elem_of_singleton in Hh as ->. by eapply Hfrom.
Qed.

(** X1: in every run of either export, also one that fails, each [addFace]
  call is on exactly three vertex handles, and each of them is a valid handle
  that an earlier [addVertex] call of the same run returned. *)
Theorem faces_name_returned_handles :
  (forall (polygonizer : Polygonizer) (dst : MeshT),
      faces_on_returned_handles (calls_made (exportMesh_Polygonizer polygonizer dst)))
  /\ (forall (src : C3t3) (dst : MeshT),
        faces_on_returned_handles (calls_made (exportMesh_C3t3 src dst))).
Proof.
  split.
  - intros polygonizer dst.
    destruct (exportMesh_Polygonizer_anatomy polygonizer dst)
      as (hs & F & E & o & b' & Hrun & _ & Hlen & _ & Hall & Hend).
    rewrite Hrun. cbn [calls_made].
    eapply shape_faces_on_returned_handles;
      [by rewrite length_seq|exact Hall|exact Hend|].
    intros y vs _. apply triangle_corners_handles.
  - intros src dst.
    destruct (exportMesh_C3t3_anatomy src dst)
      as (hs & F & E & o & b' & Hrun & _ & Hlen & _ & Hall & Hend).
    rewrite Hrun. cbn [calls_made].
    eapply shape_faces_on_returned_handles; [exact Hlen|exact Hall|exact Hend|].
    intros y vs fh. by apply facet_corners_handles.
Qed.

Lemma shape_bracket {X Y A} (xs : list X) (ys : list Y)
    (pre : A -> Y -> Failure + list VertexHandle) (vmsg fmsg : string) (acc : A)
    (req : X -> Vector3 * option Z * option Vector3)
    (hs : list VertexHandle) (F E : list Call) (o : Outcome unit) :
  Forall2 (face_call_of (pre acc)) (take (length F) ys) F ->
  ending xs ys pre vmsg fmsg acc hs F E o ->
  bracket_follows_outcome o (CBegin :: zip_with (vertex_call req) xs hs ++ F ++ E).
Proof.
  intros Hall Hend. exists (zip_with (vertex_call req) xs hs ++ F). split.
  - apply Forall_app. split.
    + eapply Forall_impl; [apply vertex_calls_kind|].
      intros c [Hc _]. unfold is_addition. by rewrite Hc.
    + apply face_calls_kind in Hall. eapply Forall_impl; [exact Hall|].
      intros c [_ Hc]. unfold is_addition. rewrite Hc. by rewrite orb_true_r.
  - destruct (ending_closing _ _ _ _ _ _ _ _ _ _ Hend) as [[-> ->]|(f & -> & ->)].
    + left. split; [done|]. by rewrite <- app_assoc.
    + right. exists f. split; [done|]. by rewrite !app_nil_r.
Qed.

(** X2: both exports call [begin] first and additions after it; [end] is
  called, as the last call, exactly when the export returns. An export that
  throws leaves the builder after [begin] with no [end]. *)
Theorem end_is_reached_when_the_export_returns :
  (forall (polygonizer : Polygonizer) (dst : MeshT),
      bracket_follows_outcome (outcome (exportMesh_Polygonizer polygonizer dst))
        (calls_made (exportMesh_Polygonizer polygonizer dst)))
  /\ (forall (src : C3t3) (dst : MeshT),
        bracket_follows_outcome (outcome (exportMesh_C3t3 src dst))
          (calls_made (exportMesh_C3t3 src dst))).
Proof.
  split.
  - intros polygonizer dst.
    destruct (exportMesh_Polygonizer_anatomy polygonizer dst)
      as (hs & F & E & o & b' & Hrun & _ & _ & _ & Hall & Hend).
    rewrite Hrun. cbn [calls_made outcome]. by eapply shape_bracket.
  - intros src dst.
    destruct (exportMesh_C3t3_anatomy src dst)
      as (hs & F & E & o & b' & Hrun & _ & _ & _ & Hall & Hend).
    rewrite Hrun. cbn [calls_made outcome]. by eapply shape_bracket.
Qed.

Lemma exportMesh_Polygonizer_outcomes (polygonizer : Polygonizer) (dst : MeshT) :
  outcome (exportMesh_Polygonizer polygonizer dst)
  ∈ [Returned tt; Thrown (Error vertex_error); Thrown (FatalError bounds_error);
     Thrown (Error triangle_error)].
Proof.
  destruct (exportMesh_Polygonizer_anatomy polygonizer dst)
    as (hs & F & E & o & b' & Hrun & _ & _ & _ & _ & Hend).
  rewrite Hrun. cbn [outcome]. destruct o as [[]|f]; [by constructor|].
  apply ending_thrown in Hend
    as (_ & [(-> & _)|(_ & _ & [(_ & y & _ & Hpre)|(-> & _)])]).
  - by repeat constructor.
  - apply triangle_corners_inl in Hpre as [-> _]. by repeat constructor.
  - by repeat constructor.
Qed.

Lemma exportMesh_C3t3_outcomes (src : C3t3) (dst : MeshT) :
  outcome (exportMesh_C3t3 src dst)
  ∈ [Returned tt; Thrown (Error c3t3_vertex_error); Thrown (Error unmapped_error);
     Thrown (Error c3t3_triangle_error)].
Proof.
  destruct (exportMesh_C3t3_anatomy src dst)
    as (hs & F & E & o & b' & Hrun & _ & _ & _ & _ & Hend).
  rewrite Hrun. cbn [outcome]. destruct o as [[]|f]; [by constructor|].
  apply ending_thrown in Hend
    as (_ & [(-> & _)|(_ & _ & [(_ & y & _ & Hpre)|(-> & _)])]).
  - by repeat constructor.
  - apply facet_corners_inl in Hpre as (-> & _). by repeat constructor.
  - by repeat constructor.
Qed.

(** X3: the ways the two exports can end. The Bloomenthal export returns, or
  throws the error of a refused vertex, the fatal error of the index check, or
  the error of a refused triangle: the reads of [vertices] that follow the
  index check never fall outside it. The refinement export of a complex whose
  facet indices lie in [0..3] returns, or throws the error of a refused
  vertex, of an unmapped vertex or of a refused triangle; it never throws a
  fatal error. *)
Theorem export_outcomes :
  (forall (polygonizer : Polygonizer) (dst : MeshT),
      outcome (exportMesh_Polygonizer polygonizer dst)
      ∈ [Returned tt; Thrown (Error vertex_error); Thrown (FatalError bounds_error);
         Thrown (Error triangle_error)])
  /\ (forall (src : C3t3) (dst : MeshT),
        Forall (fun fit : Cell_handle * Z => 0 <= fit.2 <= 3) (facets_in_complex src) ->
        outcome (exportMesh_C3t3 src dst)
        ∈ [Returned tt; Thrown (Error c3t3_vertex_error);
           Thrown (Error unmapped_error); Thrown (Error c3t3_triangle_error)]).
Proof.
  split.
  - apply exportMesh_Polygonizer_outcomes.
  - intros src dst _. apply exportMesh_C3t3_outcomes.
Qed.

Lemma accepted_run_thrown {X Y A} (xs : list X) (ys : list Y)
    (pre : A -> Y -> Failure + list VertexHandle) (vmsg fmsg : string) (acc : A)
    (req : X -> Vector3 * option Z * option Vector3)
    (hs : list VertexHandle) (F E : list Call) (f : Failure) :
  (length hs <= length xs)%nat ->
  ending xs ys pre vmsg fmsg acc hs F E (Thrown f) ->
  Forall (fun c => rejected c = false)
    (CBegin :: zip_with (vertex_call req) xs hs ++ F ++ E) ->
  length hs = length xs /\ exists y, ys !! length F = Some y /\ pre acc y = inl f.
Proof.
  intros Hlen Hend Hacc.
  apply Forall_cons in Hacc as [_ Hacc].
  apply Forall_app in Hacc as [HV Hacc]. apply Forall_app in Hacc as [HF _].
  apply ending_thrown in Hend
    as (_ & [(_ & _ & hs0 & h & -> & _ & Hbad)
            |(Hl & _ & [(_ & Hy)|(_ & F0 & c & -> & _ & Hbad)])]).
  - destruct (zip_with_snoc req xs hs0 h Hlen) as [x Hx]. rewrite Hx in HV.
    apply Forall_app in HV as [_ HV]. apply Forall_cons in HV as [HV _].
    unfold vertex_call in HV. destruct (req x) as [[p i] n]. simpl in HV.
    rewrite Hbad in HV. discriminate HV.
  - done.
  - apply Forall_app in HF as [_ HF]. apply Forall_cons in HF as [HF _]. congruence.
Qed.

Lemma accepted_run_returned {X} (req : X -> Vector3 * option Z * option Vector3)
    (xs : list X) (hs : list VertexHandle) (F : list Call) :
  Forall (fun h => isValidVertexHandle h = true) hs ->
  Forall (fun c => rejected c = false) F ->
  Forall (fun c => rejected c = false)
    (CBegin :: zip_with (vertex_call req) xs hs ++ F ++ [CEnd]).
Proof.
  intros Hvalid HF. constructor; [done|].
  apply Forall_app. split; [by apply vertex_calls_accepted|].
  apply Forall_app. split; [done|]. by repeat constructor.
Qed.

(** X4: the Bloomenthal export returns exactly when the mesh turned down none
  of the insertions it made and the three indices of every raw triangle lie
  in [[0, no_vertices)]. *)
Theorem exportMesh_Polygonizer_returns_iff (polygonizer : Polygonizer) (dst : MeshT) :
  outcome (exportMesh_Polygonizer polygonizer dst) = Returned tt
  <-> Forall (fun c => rejected c = false)
        (calls_made (exportMesh_Polygonizer polygonizer dst))
      /\ forall k, (k < no_triangles polygonizer)%nat ->
           triangle_in_range (get_triangle polygonizer k) (no_vertices polygonizer).
Proof.
  destruct (exportMesh_Polygonizer_anatomy polygonizer dst)
    as (hs & F & E & o & b' & Hrun & _ & Hlen & _ & Hall & Hend).
  rewrite Hrun. cbn [outcome calls_made]. split.
  - intros ->. apply ending_returned in Hend as (-> & Hl & HlF & Hvalid & Hacc).
    rewrite length_seq in Hl, HlF. split; [by apply accepted_run_returned|].
    intros k Hk. rewrite take_ge in Hall by (rewrite length_seq; lia).
    destruct (lookup_lt_is_Some_2 F k) as [c Hc]; [lia|].
    assert (Hi : seq 0 (no_triangles polygonizer) !! k = Some k)
      by (by apply lookup_seq).
    destruct (Forall2_lookup_lr _ _ _ _ _ _ Hall Hi Hc) as (vx & fh & Hpre & _).
    apply triangle_corners_inr in Hpre as [Hin _]. by rewrite Hl in Hin.
  - intros [Hacc Hin]. destruct o as [[]|f]; [done|]. exfalso.
    destruct (accepted_run_thrown _ _ _ _ _ _ _ _ _ _ _
                ltac:(by rewrite length_seq) Hend Hacc) as (Hl & y & Hy & Hpre).
    rewrite length_seq in Hl. apply lookup_seq in Hy as [-> Hlt]. simpl in Hpre.
    apply triangle_corners_inl in Hpre as [_ Hout].
    apply Hout. rewrite Hl. by apply Hin.
Qed.

(** X5: for a complex whose facet indices all lie in [0..3], the refinement
  export returns exactly when the mesh turned down none of the insertions it
  made and every facet of the complex has its three corners among the finite
  vertices. *)
Theorem exportMesh_C3t3_returns_iff (src : C3t3) (dst : MeshT) :
  Forall (fun fit : Cell_handle * Z => 0 <= fit.2 <= 3) (facets_in_complex src) ->
  outcome (exportMesh_C3t3 src dst) = Returned tt
  <-> Forall (fun c => rejected c = false) (calls_made (exportMesh_C3t3 src dst))
      /\ Forall (finite_corners src) (facets_in_complex src).
Proof.
  intros Hrange. rewrite Forall_forall in Hrange.
  destruct (exportMesh_C3t3_anatomy src dst)
    as (hs & F & E & o & b' & Hrun & _ & Hlen & _ & Hall & Hend).
  rewrite Hrun. cbn [outcome calls_made]. split.
  - intros ->. apply ending_returned in Hend as (-> & Hl & HlF & Hvalid & Hacc).
    split; [by apply accepted_run_returned|].
    rewrite take_ge in Hall by lia.
    apply Forall_forall. intros fit Hfit.
    pose proof (Hrange fit Hfit) as Hidx.
    apply list_elem_of_lookup_1 in Hfit as [k Hk].
    destruct (Forall2_lookup_l _ _ _ _ _ Hall Hk) as (c & _ & vx & fh & Hpre & _).
    pose proof (facet_corners_inr _ _ _ _ Hpre) as Htri.
    destruct (Htri fh)
      as (i0 & i1 & i2 & a0 & a1 & a2 & fh' & Hord & Hne & H0 & H1 & H2 & _).
    intros i Hi Hne'.
    assert (Hfrom : forall v a,
               collected record_handle ∅ (finite_vertices src) hs !! v = Some a ->
               v ∈ finite_vertices src).
    { intros v a Hv. apply collected_from in Hv as [Hv|Hv].
      - by rewrite lookup_empty in Hv.
      - by apply elem_of_zip_l in Hv. }
    assert (Hcases : i = i0 \/ i = i1 \/ i = i2) by lia.
    destruct Hcases as [-> | [-> | ->]]; by eapply Hfrom.
  - intros [Hacc Hfacets]. destruct o as [[]|f]; [done|]. exfalso.
    destruct (accepted_run_thrown _ _ _ _ _ _ _ _ _ _ _ Hlen Hend Hacc)
      as (Hl & y & Hy & Hpre).
    apply list_elem_of_lookup_2 in Hy. rewrite Forall_forall in Hfacets.
    pose proof (Hfacets y Hy) as Hfinite.
    apply facet_corners_inl in Hpre as (_ & i & Hi & Hne & Hnone).
    pose proof (Hfinite i Hi Hne) as Hv.
    apply (collected_total ∅ _ hs) in Hv; [|done].
    rewrite Hnone in Hv. by destruct Hv.
Qed.

(** X7: the identity map as the vertex loop of the refinement export builds
  it. When the loop completes on pairwise distinct finite vertices, it made
  one [addVertex] call per finite vertex, in order, and the map it leaves
  sends the [k]-th finite vertex to the handle that the [k]-th of these calls
  returned, has no entry for a vertex that is not a finite vertex, and has as
  many entries as there are finite vertices. *)
Theorem vertex_loop_builds_identity_map (src : C3t3) (s s' : Session)
    (vmap : gmap Vertex_handle VertexHandle) :
  NoDup (finite_vertices src) ->
  for_each (finite_vertices src) (c3t3_vertex_step src) ∅ s = (Returned vmap, s') ->
  exists hs : list VertexHandle,
    calls s'
    = calls s
      ++ zip_with
           (fun vit h =>
              CAddVertex
                (mkVector3 (px (point src vit)) (py (point src vit))
                   (pz (point src vit)))
                None None h)
           (finite_vertices src) hs
    /\ length hs = length (finite_vertices src)
    /\ Forall (fun h => isValidVertexHandle h = true) hs
    /\ (forall k v h,
          finite_vertices src !! k = Some v -> hs !! k = Some h ->
          vmap !! v = Some h)
    /\ (forall v, v ∉ finite_vertices src -> vmap !! v = None)
    /\ size vmap = length (finite_vertices src).
Proof.
  intros Hnd Hrun.
  apply (vertex_loop_run (c3t3_vertex_request src) record_handle c3t3_vertex_error
           _ (c3t3_vertex_step_shape src)) in Hrun
    as (hs & _ & [Hcalls _] & Hlen & Hvalid & ->).
  fold (collected record_handle ∅ (finite_vertices src) hs).
  exists hs. split; [exact Hcalls|]. split; [exact Hlen|]. split; [exact Hvalid|].
  split; [|split].
  - intros k v h Hv Hh. by eapply collected_lookup.
  - intros v Hv. rewrite collected_not_in by done. apply lookup_empty.
  - rewrite collected_size; [by rewrite map_size_empty|done| |done].
    intros x _. apply lookup_empty.
Qed.

(** X8: however a run of either export ends, its calls are [begin], then the
  [addVertex] calls for the first [n] raw vertices, in order, then the
  [addFace] calls for the first [m] raw triangles or facets, in order, each on
  the corners of its own triangle or facet, and then possibly [end]. A face is
  added only when [n] is the number of raw vertices, and [end] is called only
  when [n] and [m] are the full numbers. So no raw vertex, triangle or facet
  is inserted twice, and a failed export has made an initial part of the
  insertions of a complete one. *)
Theorem partial_export_is_initial_part :
  (forall (polygonizer : Polygonizer) (dst : MeshT),
      exists (hs : list VertexHandle) (F E : list Call),
        calls_made (exportMesh_Polygonizer polygonizer dst)
        = CBegin
          :: zip_with
               (fun i h =>
                  CAddVertex (position (get_vertex polygonizer i))
                    (Some (Z.of_nat i))
                    (Some (normal (get_normal polygonizer i))) h)
               (seq 0 (no_vertices polygonizer)) hs
          ++ F ++ E
        /\ (length hs <= no_vertices polygonizer)%nat
        /\ (length F <= no_triangles polygonizer)%nat
        /\ Forall2 (fun i c => face_of_triangle hs (get_triangle polygonizer i) c)
             (take (length F) (seq 0 (no_triangles polygonizer))) F
        /\ (F <> [] -> length hs = no_vertices polygonizer)
        /\ (E = []
            \/ (E = [CEnd] /\ length hs = no_vertices polygonizer
                /\ length F = no_triangles polygonizer))
        /\ added_vertices (calls_made (exportMesh_Polygonizer polygonizer dst))
           = length hs
        /\ added_faces (calls_made (exportMesh_Polygonizer polygonizer dst))
           = length F)
  /\ (forall (src : C3t3) (dst : MeshT),
        exists (hs : list VertexHandle) (F E : list Call),
          calls_made (exportMesh_C3t3 src dst)
          = CBegin
            :: zip_with
                 (fun vit h =>
                    CAddVertex
                      (mkVector3 (px (point src vit)) (py (point src vit))
                         (pz (point src vit)))
                      None None h)
                 (finite_vertices src) hs
            ++ F ++ E
          /\ (length hs <= length (finite_vertices src))%nat
          /\ (length F <= length (facets_in_complex src))%nat
          /\ Forall2 (facet_triangle src (identity_map src hs))
               (take (length F) (facets_in_complex src)) F
          /\ (F <> [] -> length hs = length (finite_vertices src))
          /\ (E = []
              \/ (E = [CEnd] /\ length hs = length (finite_vertices src)
                  /\ length F = length (facets_in_complex src)))
          /\ added_vertices (calls_made (exportMesh_C3t3 src dst)) = length hs
          /\ added_faces (calls_made (exportMesh_C3t3 src dst)) = length F).
Proof.
  split.
  - intros polygonizer dst.
    destruct (exportMesh_Polygonizer_anatomy polygonizer dst)
      as (hs & F & E & o & b' & Hrun & _ & Hlen & HlenF & Hall & Hend).
    rewrite Hrun. cbn [calls_made].
    exists hs, F, E. split; [reflexivity|]. split; [exact Hlen|].
    split; [exact HlenF|]. split.
    { eapply Forall2_impl; [exact Hall|].
      intros i c (vx & fh & Hpre & ->). by apply triangle_corners_inr. }
    split.
    { intros HF.
      destruct (ending_face_made _ _ _ _ _ _ _ _ _ _ Hend HF) as [Hl _].
      by rewrite length_seq in Hl. }
    split.
    { destruct o as [u|f].
      - apply ending_returned in Hend as (-> & Hl & HlF & _).
        rewrite length_seq in Hl, HlF. by right.
      - apply ending_thrown in Hend as (-> & _). by left. }
    destruct (added_in_export (polygonizer_vertex_request polygonizer)
                (seq 0 (no_vertices polygonizer)) hs F E) as [HV HF].
    { by eapply face_calls_kind. }
    { destruct (ending_closing _ _ _ _ _ _ _ _ _ _ Hend) as [[_ ->]|(f & _ & ->)];
        by repeat constructor. }
    split.
    + etransitivity; [exact HV|]. rewrite length_zip_with, length_seq. lia.
    + exact HF.
  - intros src dst.
    destruct (exportMesh_C3t3_anatomy src dst)
      as (hs & F & E & o & b' & Hrun & _ & Hlen & HlenF & Hall & Hend).
    rewrite Hrun. cbn [calls_made].
    exists hs, F, E. split; [reflexivity|]. split; [exact Hlen|].
    split; [exact HlenF|]. split.
    { eapply Forall2_impl; [exact Hall|].
      intros fit c (vx & fh & Hpre & ->). by apply facet_corners_inr. }
    split.
    { intros HF.
      by destruct (ending_face_made _ _ _ _ _ _ _ _ _ _ Hend HF) as [Hl _]. }
    split.
    { destruct o as [u|f].
      - apply ending_returned in Hend as (-> & Hl & HlF & _). by right.
      - apply ending_thrown in Hend as (-> & _). by left. }
    destruct (added_in_export (c3t3_vertex_request src) (finite_vertices src) hs F E)
      as [HV HF].
    { by eapply face_calls_kind. }
    { destruct (ending_closing _ _ _ _ _ _ _ _ _ _ Hend) as [[_ ->]|(f & _ & ->)];
        by repeat constructor. }
    split.
    + etransitivity; [exact HV|]. rewrite length_zip_with. lia.
    + exact HF.
Qed.

(** X9: the two adapters at evaluation. An adapter that [BloomenthalEval]'s
  constructor returned holds a functor, and [eval] returns the functor's value
  at the point, as a [float]: it never dereferences a null pointer. [CgalEval]
  is always constructed; its [operator()] returns the functor's value at the
  point, and dereferences the null pointer exactly when it was constructed
  from one. *)
Theorem adapters_at_evaluation :
  (forall p e,
      BloomenthalEval.ctor p = Returned e ->
      exists f,
        p = Some f
        /\ forall x y z,
             BloomenthalEval.eval e x y z
             = Returned (to_float (f (mkVector3 (to_double x) (to_double y)
                                        (to_double z)))))
  /\ (forall p pt,
        exists e,
          CgalEval.ctor p = Returned e
          /\ (CgalEval.eval e pt = Thrown MemoryFault <-> p = None)
          /\ forall f, p = Some f ->
               CgalEval.eval e pt = Returned (f (mkVector3 (px pt) (py pt) (pz pt)))).
Proof.
  split.
  - intros [f|] e Hctor; [|discriminate Hctor].
    injection Hctor as <-. exists f. split; [reflexivity|]. intros x y z. reflexivity.
  - intros p pt. exists (CgalEval.mk p). split; [reflexivity|].
    destruct p as [f|]; split.
    + split; intros Heq; discriminate Heq.
    + intros g Hg. injection Hg as <-. reflexivity.
    + split; intros _; reflexivity.
    + intros g Hg. discriminate Hg.
Qed.

(** X10: a negative entry of the options only selects the default, whatever
  its value: two option bundles with the same subdivision flag whose sizes
  and budgets are all negative give the same run of [meshBloomenthal], and two
  bundles whose three entries are all negative give the same run of
  [meshBoissonnatOudot]. *)
Theorem negative_entries_are_interchangeable
    march make_mesh_3 radiansToDegrees surface_functor bounding_ball pt_near_surface
    (o1 o2 : Options.Bloomenthal) (q1 q2 : Options.BoissonnatOudot) (result : MeshT) :
  negative (Options.cell_size o1) -> negative (Options.cell_size o2) ->
  Options.max_search_steps o1 < 0 -> Options.max_search_steps o2 < 0 ->
  Options.tetrahedralize_cubes o1 = Options.tetrahedralize_cubes o2 ->
  negative (Options.min_facet_angle q1) -> negative (Options.min_facet_angle q2) ->
  negative (Options.min_delaunay_radius q1) ->
  negative (Options.min_delaunay_radius q2) ->
  negative (Options.min_center_separation q1) ->
  negative (Options.min_center_separation q2) ->
  meshBloomenthal march surface_functor bounding_ball pt_near_surface o1 result
  = meshBloomenthal march surface_functor bounding_ball pt_near_surface o2 result
  /\ meshBoissonnatOudot make_mesh_3 radiansToDegrees surface_functor bounding_ball
       q1 result
     = meshBoissonnatOudot make_mesh_3 radiansToDegrees surface_functor bounding_ball
         q2 result.
Proof.
  unfold negative. intros Hc1 Hc2 Hs1 Hs2 Ht Ha1 Ha2 Hr1 Hr2 Hd1 Hd2.
  unfold meshBloomenthal, meshBoissonnatOudot.
  rewrite Hc1, Hc2, Ha1, Ha2, Hr1, Hr2, Hd1, Hd2, Ht.
  apply Z.ltb_lt in Hs1, Hs2. rewrite Hs1, Hs2. done.
Qed.

(** The default options: [meshBloomenthal] runs the polygonizer with
  a cell size of a tenth of the radius of the bounding ball, a budget of 10
  steps and cubes that are not cut into tetrahedra, and [meshBoissonnatOudot]
  runs the mesher under the criteria 30, 0.1, 0.1 and 2, without converting any
  angle. *)
Lemma default_options_select_the_defaults
    march make_mesh_3 radiansToDegrees f surface_functor bounding_ball pt_near_surface
    (result : MeshT) :
  meshBloomenthal march (Some f) bounding_ball pt_near_surface
    (Options.bloomenthal Options.defaults) result
  = exportMesh_Polygonizer
      (march (BloomenthalEval.mk (Some f))
         (to_float (double_div (getRadius bounding_ball) (double_of_Z 10))) 10 false
         (to_float (vx pt_near_surface)) (to_float (vy pt_near_surface))
         (to_float (vz pt_near_surface)))
      result
  /\ meshBoissonnatOudot make_mesh_3 radiansToDegrees surface_functor bounding_ball
       (Options.boissonnat_oudot Options.defaults) result
     = exportMesh_C3t3
         (make_mesh_3
            (mkMesh_domain (CgalEval.mk surface_functor)
               (bounding_sphere_of bounding_ball))
            (mkMesh_criteria (double_of_Z 30) double_0_1 double_0_1 (double_of_Z 2))
            false false)
         result.
Proof. split; reflexivity. Qed.

Lemma for_each_ext {X A} (xs : list X) (body1 body2 : X -> A -> Exp A) :
  (forall x, x ∈ xs -> forall acc s, body1 x acc s = body2 x acc s) ->
  forall acc s, for_each xs body1 acc s = for_each xs body2 acc s.
Proof.
  induction xs as [|x xs IH]; intros Hext acc s; simpl; [reflexivity|].
  unfold bind. rewrite Hext by (by left).
  destruct (body2 x acc s) as [[acc'|f] s']; [|reflexivity].
  apply IH. intros y Hy. apply Hext. by right.
Qed.

Lemma bind_ext {A B} (c1 c2 : Exp A) (k1 k2 : A -> Exp B) (s : Session) :
  c1 s = c2 s -> (forall a s', k1 a s' = k2 a s') -> bind c1 k1 s = bind c2 k2 s.
Proof.
  intros Hc Hk. unfold bind. rewrite Hc.
  destruct (c2 s) as [[a|f] s']; [apply Hk|reflexivity].
Qed.

(** X11: the Bloomenthal export reads the polygonizer's arrays only below
  [no_vertices] and [no_triangles]: two polygonizers with the same counts that
  agree on these entries are exported by the same run. *)
Theorem exportMesh_Polygonizer_reads_in_range (p1 p2 : Polygonizer) (dst : MeshT) :
  same_arrays p1 p2 ->
  exportMesh_Polygonizer p1 dst = exportMesh_Polygonizer p2 dst.
Proof.
  intros (Hnv & Hnt & Hvertices & Htriangles).
  assert (Hbody : forall s,
             exportMesh_Polygonizer_body p1 s = exportMesh_Polygonizer_body p2 s).
  { intros s. unfold exportMesh_Polygonizer_body. rewrite <- Hnv, <- Hnt.
    apply bind_ext; [reflexivity|]. intros _ s0.
    apply bind_ext.
    - apply for_each_ext. intros i Hi acc s1. apply elem_of_seq in Hi.
      destruct (Hvertices i) as [Hv Hn]; [lia|].
      unfold polygonizer_vertex_step. by rewrite Hv, Hn.
    - intros vertices s1. apply bind_ext; [|reflexivity].
      apply for_each_ext. intros i Hi acc s2. apply elem_of_seq in Hi.
      unfold polygonizer_triangle_step. rewrite Htriangles by lia. reflexivity. }
  unfold exportMesh_Polygonizer, run_export. by rewrite Hbody.
Qed.

Lemma facet_vertex_indices_elem idx i :
  i ∈ facet_vertex_indices idx -> 0 <= i <= 3 /\ i <> idx.
Proof.
  unfold facet_vertex_indices. intros Hi.
  apply list_elem_of_filter in Hi as [Hne Hi]. split; [|done].
  repeat (apply elem_of_cons in Hi as [-> | Hi]; [lia|]).
  by apply elem_of_nil in Hi.
Qed.

Lemma vertex_indices_elem idx i :
  i ∈ vertex_indices idx -> 0 <= i <= 3 /\ i <> idx.
Proof.
  unfold vertex_indices. intros Hi.
  apply facet_vertex_indices_elem. revert Hi. apply subseteq_take.
Qed.

(** X12: the refinement export reads the point of a finite vertex only, and of
  a cell only the three corners other than the one opposite to a facet of the
  complex: two complexes with the same finite vertices and facets that agree on
  these are exported by the same run. *)
Theorem exportMesh_C3t3_reads_facet_corners (c1 c2 : C3t3) (dst : MeshT) :
  same_complex c1 c2 ->
  exportMesh_C3t3 c1 dst = exportMesh_C3t3 c2 dst.
Proof.
  intros (Hfv & Hfacets & Hpoints & Hcorners).
  assert (Hbody : forall s, exportMesh_C3t3_body c1 s = exportMesh_C3t3_body c2 s).
  { intros s. unfold exportMesh_C3t3_body. rewrite <- Hfv, <- Hfacets.
    apply bind_ext; [reflexivity|]. intros _ s0.
    apply bind_ext.
    - apply for_each_ext. intros v Hv acc s1.
      unfold c3t3_vertex_step. by rewrite Hpoints.
    - intros vmap s1. apply bind_ext; [|reflexivity].
      apply for_each_ext. intros [cell idx] Hfit acc s2.
      unfold c3t3_facet_step. cbn [fst snd].
      pose proof (vertex_indices_elem idx) as Helem.
      apply bind_ext; [|reflexivity].
      apply for_each_ext. intros i Hi acc' s'.
      destruct (Helem i Hi) as [Hrange Hne].
      unfold facet_corner_step. by rewrite (Hcorners cell idx i Hfit Hrange Hne). }
  unfold exportMesh_C3t3, run_export. by rewrite Hbody.
Qed.

(** X13: only a value below zero selects a default. A [cell_size] that is zero
  or a NaN and a [max_search_steps] of 0 are handed to the polygonizer as they
  are. *)
Theorem zero_and_nan_are_not_sentinels
    march f bounding_ball pt_near_surface options (result : MeshT) :
  zero_or_nan (Options.cell_size options) ->
  Options.max_search_steps options = 0 ->
  meshBloomenthal march (Some f) bounding_ball pt_near_surface options result
  = exportMesh_Polygonizer
      (march (BloomenthalEval.mk (Some f)) (Options.cell_size options) 0
         (Options.tetrahedralize_cubes options)
         (to_float (vx pt_near_surface)) (to_float (vy pt_near_surface))
         (to_float (vz pt_near_surface)))
      result.
Proof.
  intros Hsize Hsteps. unfold meshBloomenthal.
  change (BloomenthalEval.ctor (Some f)) with (Returned (BloomenthalEval.mk (Some f))).
  cbv beta iota zeta. rewrite Hsteps.
  destruct Hsize as [-> | [sgn ->]]; [reflexivity|].
  by destruct sgn.
Qed.

End Verification.

(** ** The claims on the sample inputs *)

Lemma meshBloomenthal_resolves_sentinels_witness :
  exists (size : float) (bounds : Z),
    meshBloomenthal Samples.march Samples.functor Samples.ball Samples.zero
      Options.Bloomenthal_defaults (IndexedMesh.empty 10)
    = exportMesh_Polygonizer
        (Samples.march (BloomenthalEval.mk Samples.functor) size bounds false
           (to_float (vx Samples.zero)) (to_float (vy Samples.zero))
           (to_float (vz Samples.zero)))
        (IndexedMesh.empty 10)
    /\ size = S754_finite false 13421773 (-26)
    /\ bounds = 10.
Proof.
  destruct (meshBloomenthal_resolves_sentinels Samples.march
              (fun _ => double_of_Z (-1)) Samples.ball Samples.zero
              Options.Bloomenthal_defaults (IndexedMesh.empty 10))
    as (size & bounds & Hrun & Hsize & _ & Hbounds & _).
  exists size, bounds. split; [exact Hrun|]. split.
  - rewrite Hsize; reflexivity.
  - apply Hbounds. reflexivity.
Defined.

Lemma meshBoissonnatOudot_resolves_sentinels_witness :
  exists criteria : Mesh_criteria,
    facet_angle criteria = double_of_Z 30
    /\ facet_size criteria = double_0_1
    /\ facet_distance criteria = double_0_1
    /\ cell_radius_edge_ratio criteria = double_of_Z 2.
Proof.
  destruct (meshBoissonnatOudot_resolves_sentinels Samples.make_mesh_3 Samples.degrees
              Samples.functor Samples.ball Options.BoissonnatOudot_defaults
              (IndexedMesh.empty 10))
    as (criteria & _ & Hangle & _ & Hsize & _ & Hdist & _ & Hratio).
  exists criteria. split; [apply Hangle; reflexivity|].
  split; [apply Hsize; reflexivity|].
  split; [apply Hdist; reflexivity|exact Hratio].
Defined.

Lemma exportMesh_Polygonizer_exports_every_primitive_witness :
  outcome (exportMesh_Polygonizer Samples.triangle (IndexedMesh.empty 10)) = Returned tt
  /\ added_vertices
       (calls_made (exportMesh_Polygonizer Samples.triangle (IndexedMesh.empty 10)))
     = 3%nat
  /\ added_faces
       (calls_made (exportMesh_Polygonizer Samples.triangle (IndexedMesh.empty 10)))
     = 1%nat
  /\ exists b' : IndexedMesh.builder,
       performed (builder_new (IndexedMesh.empty 10))
         (calls_made (exportMesh_Polygonizer Samples.triangle (IndexedMesh.empty 10)))
         b'
       /\ mesh_after (exportMesh_Polygonizer Samples.triangle (IndexedMesh.empty 10))
          = builder_mesh b'.
Proof.
  assert (Hok : outcome (exportMesh_Polygonizer Samples.triangle (IndexedMesh.empty 10))
                = Returned tt) by (vm_compute; reflexivity).
  split; [exact Hok|].
  destruct (exportMesh_Polygonizer_exports_every_primitive Samples.triangle
              (IndexedMesh.empty 10) Hok)
    as (hs & F & b' & _ & Hperf & Hmesh & _ & _ & _ & _ & Hv & Hf).
  split; [exact Hv|]. split; [exact Hf|].
  exists b'. split; [exact Hperf|exact Hmesh].
Defined.

Lemma polygonizer_triangle_indices_checked_witness :
  outcome (exportMesh_Polygonizer Samples.dangling (IndexedMesh.empty 10))
  = Thrown (FatalError bounds_error)
  /\ exists k, (k < 1)%nat
       /\ ~ triangle_in_range (get_triangle Samples.dangling k) 3
       /\ added_faces
            (calls_made (exportMesh_Polygonizer Samples.dangling (IndexedMesh.empty 10)))
          = k.
Proof.
  assert (Hfail : outcome (exportMesh_Polygonizer Samples.dangling (IndexedMesh.empty 10))
                  = Thrown (FatalError bounds_error)) by (vm_compute; reflexivity).
  split; [exact Hfail|].
  destruct (polygonizer_triangle_indices_checked (MeshT := IndexedMesh.t)
              Samples.dangling) as (_ & _ & _ & Hfatal & _).
  destruct (Hfatal (IndexedMesh.empty 10) bounds_error Hfail) as [_ Hk].
  exact Hk.
Defined.


Lemma exportMesh_C3t3_facet_triangles_witness :
  outcome (exportMesh_C3t3 Samples.tetrahedron (IndexedMesh.empty 10)) = Returned tt
  /\ exists (hs : list Z) (F : list (Call Z Z)) (b' : IndexedMesh.builder),
       calls_made (exportMesh_C3t3 Samples.tetrahedron (IndexedMesh.empty 10))
       = CBegin
         :: zip_with
              (fun vit h =>
                 CAddVertex
                   (mkVector3 (px (point Samples.tetrahedron vit))
                      (py (point Samples.tetrahedron vit))
                      (pz (point Samples.tetrahedron vit)))
                   None None h)
              (finite_vertices Samples.tetrahedron) hs
         ++ F ++ [CEnd]
       /\ mesh_after (exportMesh_C3t3 Samples.tetrahedron (IndexedMesh.empty 10))
          = builder_mesh b'
       /\ length hs = 4%nat
       /\ Forall2 (facet_triangle Samples.tetrahedron
                     (identity_map Samples.tetrahedron hs))
            [(1%N, 3)] F.
Proof.
  assert (Hok : outcome (exportMesh_C3t3 Samples.tetrahedron (IndexedMesh.empty 10))
                = Returned tt) by (vm_compute; reflexivity).
  split; [exact Hok|].
  destruct (exportMesh_C3t3_facet_triangles (MeshT := IndexedMesh.t)
              Samples.tetrahedron) as [Hexport _].
  destruct (Hexport (IndexedMesh.empty 10) Hok)
    as (hs & F & b' & Hcalls & _ & Hmesh & Hlen & _ & Hfaces & _).
  exists hs, F, b'.
  split; [exact Hcalls|]. split; [exact Hmesh|]. split; [exact Hlen|exact Hfaces].
Defined.

Lemma rejected_insertion_aborts_export_witness :
  exists (pre : list (Call Z Z)) (c : Call Z Z),
    calls_made (exportMesh_Polygonizer Samples.triangle (IndexedMesh.empty 2))
    = pre ++ [c]
    /\ rejected c = true
    /\ outcome (exportMesh_Polygonizer Samples.triangle (IndexedMesh.empty 2))
       = Thrown (Error vertex_error)
    /\ exists b',
         performed (builder_new (IndexedMesh.empty 2)) (pre ++ [c]) b'
         /\ mesh_after (exportMesh_Polygonizer Samples.triangle (IndexedMesh.empty 2))
            = builder_mesh b'.
Proof.
  destruct (rejected_insertion_aborts_export (MeshT := IndexedMesh.t)) as [Hexport _].
  destruct (Hexport Samples.triangle (IndexedMesh.empty 2)) as [Hfast _].
  set (cs := calls_made (exportMesh_Polygonizer Samples.triangle (IndexedMesh.empty 2))).
  assert (Hcs : cs = removelast cs ++ [List.last cs CBegin]) by (vm_compute; reflexivity).
  assert (Hrej : rejected (List.last cs CBegin) = true) by (vm_compute; reflexivity).
  destruct (Hfast (removelast cs) (List.last cs CBegin) [] Hcs Hrej)
    as (_ & Hout & Hmesh).
  exists (removelast cs), (List.last cs CBegin).
  split; [exact Hcs|]. split; [exact Hrej|]. split; [exact Hout|exact Hmesh].
Defined.

Lemma indexed_keeps_refl (m : IndexedMesh.t) : IndexedMesh.keeps m m.
Proof. split; reflexivity. Qed.

Lemma indexed_keeps_trans (m1 m2 m3 : IndexedMesh.t) :
  IndexedMesh.keeps m1 m2 -> IndexedMesh.keeps m2 m3 -> IndexedMesh.keeps m1 m3.
Proof. intros [Hv1 Hf1] [Hv2 Hf2]. split; etransitivity; eassumption. Qed.

Lemma indexed_addVertex_keeps p i n (b : IndexedMesh.builder) :
  IndexedMesh.keeps (IndexedMesh.mesh b)
    (IndexedMesh.mesh (IndexedMesh.addVertex p i n b).2).
Proof.
  unfold IndexedMesh.addVertex.
  destruct (_ <? _)%nat; simpl; [|apply indexed_keeps_refl].
  split; simpl; [by apply prefix_app_r|reflexivity].
Qed.

Lemma indexed_addFace_keeps vs (b : IndexedMesh.builder) :
  IndexedMesh.keeps (IndexedMesh.mesh b)
    (IndexedMesh.mesh (IndexedMesh.addFace vs b).2).
Proof.
  unfold IndexedMesh.addFace.
  destruct (_ && _); simpl; [|apply indexed_keeps_refl].
  split; simpl; [reflexivity|by apply prefix_app_r].
Qed.

Lemma entry_points_only_add_witness :
  IndexedMesh.keeps Samples.used_mesh
    (mesh_after
       (meshBloomenthal Samples.march Samples.functor Samples.ball Samples.zero
          Options.Bloomenthal_defaults Samples.used_mesh))
  /\ IndexedMesh.keeps Samples.used_mesh
       (mesh_after
          (meshBoissonnatOudot Samples.make_mesh_3 Samples.degrees Samples.functor
             Samples.ball Options.BoissonnatOudot_defaults Samples.used_mesh)).
Proof.
  destruct (@entry_points_only_add _ _ _ _ IndexedMesh.indexed_builder
              IndexedMesh.keeps
              indexed_keeps_refl indexed_keeps_trans
              (fun m => indexed_keeps_refl m)
              (fun b => indexed_keeps_refl (IndexedMesh.mesh b))
              (fun b => indexed_keeps_refl (IndexedMesh.mesh b))
              indexed_addVertex_keeps indexed_addFace_keeps
              Samples.march Samples.make_mesh_3 Samples.degrees Samples.functor
              Samples.ball Samples.zero Options.Bloomenthal_defaults
              Options.BoissonnatOudot_defaults Samples.used_mesh)
    as [(_ & _ & Hb) (_ & _ & Hbo)].
  split; [exact Hb|exact Hbo].
Defined.

Lemma empty_result_exports_nothing_witness :
  exportMesh_Polygonizer Samples.nothing (IndexedMesh.empty 10)
  = mkRun (Returned tt) (IndexedMesh.empty 10) [CBegin; CEnd]
  /\ exportMesh_C3t3 Samples.no_surface (IndexedMesh.empty 10)
     = mkRun (Returned tt) (IndexedMesh.empty 10) [CBegin; CEnd].
Proof.
  exact (empty_result_exports_nothing Samples.nothing Samples.no_surface
           (IndexedMesh.empty 10) eq_refl eq_refl eq_refl eq_refl).
Defined.

(** ** The further properties on the sample inputs *)

Lemma export_outcomes_witness :
  Forall (fun fit : Cell_handle * Z => 0 <= fit.2 <= 3)
    (facets_in_complex Samples.tetrahedron)
  /\ outcome (exportMesh_C3t3 Samples.tetrahedron (IndexedMesh.empty 2))
     ∈ [Returned tt; Thrown (Error c3t3_vertex_error);
        Thrown (Error unmapped_error); Thrown (Error c3t3_triangle_error)].
Proof.
  assert (Hrange : Forall (fun fit : Cell_handle * Z => 0 <= fit.2 <= 3)
                     (facets_in_complex Samples.tetrahedron))
    by (repeat constructor; simpl; lia).
  split; [exact Hrange|].
  destruct (export_outcomes (MeshT := IndexedMesh.t)) as [_ Hc3t3].
  exact (Hc3t3 Samples.tetrahedron (IndexedMesh.empty 2) Hrange).
Defined.

Lemma exportMesh_C3t3_returns_iff_witness :
  Forall (fun fit : Cell_handle * Z => 0 <= fit.2 <= 3)
    (facets_in_complex Samples.tetrahedron)
  /\ outcome (exportMesh_C3t3 Samples.tetrahedron (IndexedMesh.empty 10)) = Returned tt
  /\ Forall (finite_corners Samples.tetrahedron) (facets_in_complex Samples.tetrahedron).
Proof.
  assert (Hrange : Forall (fun fit : Cell_handle * Z => 0 <= fit.2 <= 3)
                     (facets_in_complex Samples.tetrahedron))
    by (repeat constructor; simpl; lia).
  assert (Hok : outcome (exportMesh_C3t3 Samples.tetrahedron (IndexedMesh.empty 10))
                = Returned tt) by (vm_compute; reflexivity).
  split; [exact Hrange|]. split; [exact Hok|].
  destruct (exportMesh_C3t3_returns_iff Samples.tetrahedron (IndexedMesh.empty 10)
              Hrange) as [Honly _].
  exact (proj2 (Honly Hok)).
Defined.

Lemma vertex_loop_builds_identity_map_witness :
  exists (vmap : gmap Vertex_handle Z) (s' : Session IndexedMesh.builder Z Z),
    for_each (finite_vertices Samples.tetrahedron)
      (c3t3_vertex_step Samples.tetrahedron) ∅
      (mkSession (builder_new (IndexedMesh.empty 10)) [])
    = (Returned vmap, s')
    /\ vmap !! 12%N = Some 2
    /\ vmap !! 99%N = None
    /\ size vmap = 4%nat.
Proof.
  assert (Hnd : NoDup (finite_vertices Samples.tetrahedron))
    by (apply (bool_decide_unpack _); vm_compute; exact I).
  pose (r := for_each (finite_vertices Samples.tetrahedron)
               (c3t3_vertex_step Samples.tetrahedron) ∅
               (mkSession (builder_new (IndexedMesh.empty 10)) [])).
  assert (Hrun : r = (Returned (<[13%N := 3]> (<[12%N := 2]> (<[11%N := 1]>
                                  (<[10%N := 0]> ∅)))), r.2))
    by (vm_compute; reflexivity).
  exists (<[13%N := 3]> (<[12%N := 2]> (<[11%N := 1]> (<[10%N := 0]> ∅)))), r.2.
  split; [exact Hrun|].
  destruct (vertex_loop_builds_identity_map Samples.tetrahedron _ _ _ Hnd Hrun)
    as (hs & _ & _ & _ & _ & Hnone & Hsize).
  split; [vm_compute; reflexivity|]. split; [|exact Hsize].
  apply Hnone. apply (bool_decide_unpack _). vm_compute. exact I.
Defined.

Lemma negative_entries_are_interchangeable_witness :
  meshBloomenthal Samples.march Samples.functor Samples.ball Samples.zero
    Options.Bloomenthal_defaults (IndexedMesh.empty 10)
  = meshBloomenthal Samples.march Samples.functor Samples.ball Samples.zero
      Samples.other_sentinels_b (IndexedMesh.empty 10)
  /\ meshBoissonnatOudot Samples.make_mesh_3 Samples.degrees Samples.functor
       Samples.ball Options.BoissonnatOudot_defaults (IndexedMesh.empty 10)
     = meshBoissonnatOudot Samples.make_mesh_3 Samples.degrees Samples.functor
         Samples.ball Samples.other_sentinels_bo (IndexedMesh.empty 10).
Proof.
  apply (negative_entries_are_interchangeable Samples.march Samples.make_mesh_3
           Samples.degrees Samples.functor Samples.ball Samples.zero
           Options.Bloomenthal_defaults Samples.other_sentinels_b
           Options.BoissonnatOudot_defaults Samples.other_sentinels_bo
           (IndexedMesh.empty 10));
    reflexivity.
Defined.

Lemma exportMesh_Polygonizer_reads_in_range_witness :
  same_arrays Samples.triangle Samples.triangle_padded
  /\ exportMesh_Polygonizer Samples.triangle (IndexedMesh.empty 10)
     = exportMesh_Polygonizer Samples.triangle_padded (IndexedMesh.empty 10).
Proof.
  assert (Hsame : same_arrays Samples.triangle Samples.triangle_padded).
  { split; [reflexivity|]. split; [reflexivity|]. split.
    - intros [|[|[|i]]] Hi; [split; reflexivity..|simpl in Hi; lia].
    - intros [|i] Hi; [reflexivity|simpl in Hi; lia]. }
  split; [exact Hsame|].
  exact (exportMesh_Polygonizer_reads_in_range Samples.triangle Samples.triangle_padded
           (IndexedMesh.empty 10) Hsame).
Defined.

Lemma exportMesh_C3t3_reads_facet_corners_witness :
  same_complex Samples.tetrahedron Samples.tetrahedron_capped
  /\ exportMesh_C3t3 Samples.tetrahedron (IndexedMesh.empty 10)
     = exportMesh_C3t3 Samples.tetrahedron_capped (IndexedMesh.empty 10).
Proof.
  assert (Hsame : same_complex Samples.tetrahedron Samples.tetrahedron_capped).
  { split; [reflexivity|]. split; [reflexivity|]. split.
    - intros v Hv. simpl in Hv.
      repeat (apply elem_of_cons in Hv as [-> | Hv]; [reflexivity|]).
      by apply elem_of_nil in Hv.
    - intros cell idx i Hfit Hi Hne. simpl in Hfit.
      apply list_elem_of_singleton in Hfit. injection Hfit as -> ->.
      simpl. destruct (Z.eqb_spec i 3) as [->|_]; [by destruct Hne|reflexivity]. }
  split; [exact Hsame|].
  exact (exportMesh_C3t3_reads_facet_corners Samples.tetrahedron
           Samples.tetrahedron_capped (IndexedMesh.empty 10) Hsame).
Defined.

Lemma zero_and_nan_are_not_sentinels_witness :
  meshBloomenthal Samples.march Samples.functor Samples.ball Samples.zero
    Samples.zero_options (IndexedMesh.empty 10)
  = exportMesh_Polygonizer
      (Samples.march (BloomenthalEval.mk Samples.functor) (S754_zero false) 0 true
         (to_float (vx Samples.zero)) (to_float (vy Samples.zero))
         (to_float (vz Samples.zero)))
      (IndexedMesh.empty 10).
Proof.
  apply (zero_and_nan_are_not_sentinels Samples.march (fun _ => double_of_Z (-1))
           Samples.ball Samples.zero Samples.zero_options (IndexedMesh.empty 10)).
  - right. by exists false.
  - reflexivity.
Defined.
